(** * cryptoshare/order: position sizing and bracket-order placement

    A shallow embedding of [bybit_trader.py] (class [BybitTrader]) and of the
    request validator of [webhook_server.py].

    Conventions of the embedding.
    - Python values that travel through the code as parsed JSON (the trade
      payload, the exchange's responses) are values of [pyval]; a dict is an
      association list read by first match.
    - Arithmetic is exact: a Python float is a rational ([Q]), equality tests
      on numbers are [Qeq_bool], [a / b] is the rational quotient and
      [a // b] is [Qfloor (a / b)]. The rounding of the IEEE double
      operations, overflow, infinities and NaN are outside the model. What
      is proved about which branches run, which calls are made and which
      divisions are evaluated does not depend on it; what is proved about
      the value of a computed quantity is a statement under exact
      arithmetic, and says so.
    - The pybit session is an oracle: its reply to a call may depend on the
      calls made before it, and is either a returned value or a raised
      exception.
    - Every [try: ... except Exception] is a [catch] in a small state and
      error monad whose state records the exchange calls made and the
      divisions evaluated, in order. *)

From Stdlib Require Import ZArith QArith Qabs Qround String Ascii List Bool Lia Lqa.
Import ListNotations.

Set Warnings "-register-all".
Local Open Scope string_scope.

(** ** Python values *)

Inductive pyval : Type :=
| PNone
| PBool (b : bool)
| PNum (q : Q)
| PStr (s : string)
| PList (l : list pyval)
| PDict (d : list (string * pyval)).

(** The exceptions the code can meet; all derive from [Exception]. *)
Inductive exn : Type :=
| KeyError (k : string)
| KeyError0
| IndexError
| TypeError
| ValueError
| AttributeError
| ZeroDivisionError
| GatewayError (msg : string).

(** [str(e)]: a [KeyError] prints the repr of its key, ['k'] for a string
    key and [0] for the integer key of [KeyError0]; the text of the other
    messages is not used by the code and is kept schematic. *)
Definition exn_str (e : exn) : string :=
  match e with
  | KeyError k => "'" ++ k ++ "'"
  | KeyError0 => "0"
  | IndexError => "list index out of range"
  | TypeError => "unsupported operand or subscript"
  | ValueError => "could not convert string to float"
  | AttributeError => "object has no such attribute"
  | ZeroDivisionError => "float division by zero"
  | GatewayError msg => msg
  end.

Inductive res (A : Type) : Type :=
| Val (a : A)
| Exc (e : exn).
Arguments Val {A} a.
Arguments Exc {A} e.

Definition rbind {A B} (r : res A) (k : A -> res B) : res B :=
  match r with
  | Val a => k a
  | Exc e => Exc e
  end.

Definition Qltb (a b : Q) : bool := negb (Qle_bool b a).

(** [max(a, b)]: the first argument unless the second is strictly larger. *)
Definition pymax (a b : Q) : Q := if Qltb a b then b else a.

Definition Q_of_bool (b : bool) : Q := if b then 1%Q else 0%Q.

(** Truth value of an object ([if x], [not x]). *)
Definition truthy (v : pyval) : bool :=
  match v with
  | PNone => false
  | PBool b => b
  | PNum q => negb (Qeq_bool q 0)
  | PStr s => negb (String.eqb s "")
  | PList l => match l with [] => false | _ => true end
  | PDict d => match d with [] => false | _ => true end
  end.

Fixpoint dict_get (d : list (string * pyval)) (k : string) : option pyval :=
  match d with
  | [] => None
  | (k', v) :: d' => if String.eqb k' k then Some v else dict_get d' k
  end.

Definition is_str (k : string) (v : pyval) : bool :=
  match v with
  | PStr s => String.eqb s k
  | _ => false
  end.

Definition is_some {A} (o : option A) : bool :=
  match o with Some _ => true | None => false end.

(** [v[k]] for a string key. *)
Definition py_getitem (v : pyval) (k : string) : res pyval :=
  match v with
  | PDict d => match dict_get d k with
               | Some x => Val x
               | None => Exc (KeyError k)
               end
  | _ => Exc TypeError
  end.

(** [v[0]]. *)
Definition py_getitem0 (v : pyval) : res pyval :=
  match v with
  | PList (x :: _) => Val x
  | PList [] => Exc IndexError
  | PStr (String c _) => Val (PStr (String c ""))
  | PStr EmptyString => Exc IndexError
  | PDict _ => Exc KeyError0
  | _ => Exc TypeError
  end.

(** [k in v] for a string [k]. *)
Definition py_in (k : string) (v : pyval) : res bool :=
  match v with
  | PDict d => Val (is_some (dict_get d k))
  | PList l => Val (existsb (is_str k) l)
  | PStr s => Val (is_some (String.index 0 k s))
  | _ => Exc TypeError
  end.

(** [v.get(k, default)]. *)
Definition py_get (v : pyval) (k : string) (default : pyval) : res pyval :=
  match v with
  | PDict d => match dict_get d k with
               | Some x => Val x
               | None => Val default
               end
  | _ => Exc AttributeError
  end.

Fixpoint chars (s : string) : list pyval :=
  match s with
  | EmptyString => []
  | String c s' => PStr (String c "") :: chars s'
  end.

(** The items a [for] loop over [v] visits. *)
Definition py_iter (v : pyval) : res (list pyval) :=
  match v with
  | PList l => Val l
  | PDict d => Val (map (fun kv => PStr (fst kv)) d)
  | PStr s => Val (chars s)
  | _ => Exc TypeError
  end.

(** A value used as an operand of [/], [-], [*]: numbers and booleans. *)
Definition py_num (v : pyval) : res Q :=
  match v with
  | PNum q => Val q
  | PBool b => Val (Q_of_bool b)
  | _ => Exc TypeError
  end.

(** [v != 0] and [v == 0]. *)
Definition py_ne0 (v : pyval) : bool :=
  match v with
  | PNum q => negb (Qeq_bool q 0)
  | PBool b => b
  | _ => true
  end.

Definition py_eq0 (v : pyval) : bool := negb (py_ne0 v).

Definition lower_ascii (c : ascii) : ascii :=
  let n := nat_of_ascii c in
  if (65 <=? n)%nat && (n <=? 90)%nat then ascii_of_nat (n + 32) else c.

(** [s.lower()] on ASCII text. *)
Fixpoint lower (s : string) : string :=
  match s with
  | EmptyString => EmptyString
  | String c s' => String (lower_ascii c) (lower s')
  end.

(** [s.replace('/', '')]. *)
Fixpoint replace_slash (s : string) : string :=
  match s with
  | EmptyString => EmptyString
  | String c s' => if Ascii.eqb c "/" then replace_slash s' else String c (replace_slash s')
  end.

(** ** The exchange session and the monad of the trader *)

Module Order.
(** The keyword arguments of [session.place_order]; [qty], [price] and
    [stopPrice] hold the values whose [str] is sent. *)
Record t : Type := mk {
  category : string;
  symbol : string;
  side : string;
  orderType : string;
  qty : Q;
  price : option pyval;
  stopPrice : option pyval;
  timeInForce : string;
  triggerBy : option string
}.
End Order.

Inductive call : Type :=
| GetWalletBalance (accountType : string)
| GetInstrumentsInfo (category symbol : string)
| PlaceOrder (o : Order.t).

Inductive reply : Type :=
| Returns (v : pyval)
| Raises (msg : string).

Record world : Type := mkWorld {
  calls : list call;
  divisions : list (Q * Q)
}.

Definition world0 : world := mkWorld [] [].

Definition M (A : Type) : Type := world -> res A * world.

Definition ret {A} (a : A) : M A := fun w => (Val a, w).

Definition raise {A} (e : exn) : M A := fun w => (Exc e, w).

Definition bind {A B} (m : M A) (k : A -> M B) : M B :=
  fun w => match m w with
           | (Val a, w') => k a w'
           | (Exc e, w') => (Exc e, w')
           end.

(** [try: m except Exception as e: h e] *)
Definition catch {A} (m : M A) (h : exn -> M A) : M A :=
  fun w => match m w with
           | (Val a, w') => (Val a, w')
           | (Exc e, w') => h e w'
           end.

Definition lift {A} (r : res A) : M A := fun w => (r, w).

Declare Scope trader_scope.
Delimit Scope trader_scope with trader.
Notation "x <- m ;; k" := (bind m (fun x => k))
  (at level 61, m at next level, right associativity) : trader_scope.
Notation "m ;;; k" := (bind m (fun _ => k))
  (at level 61, right associativity) : trader_scope.

(** [a / b]: the division is recorded, then evaluated, exactly (no
    rounding); a zero divisor raises, as in Python. *)
Definition div (a b : Q) : M Q :=
  fun w =>
    let w' := mkWorld (calls w) (divisions w ++ [(a, b)]) in
    if Qeq_bool b 0 then (Exc ZeroDivisionError, w') else (Val (a / b)%Q, w').

(** [a // b] on floats, taken exactly: the floor of the rational quotient;
    a zero divisor raises, as in Python. *)
Definition floordiv (a b : Q) : M Q :=
  fun w =>
    let w' := mkWorld (calls w) (divisions w ++ [(a, b)]) in
    if Qeq_bool b 0 then (Exc ZeroDivisionError, w')
    else (Val (inject_Z (Qfloor (a / b))), w').

Local Open Scope trader_scope.

Section Trader.

(** The pybit session: the reply to a call, given the calls made before it. *)
Variable session : list call -> call -> reply.

(** Python's [float] on a string; [None] is a [ValueError]. *)
Variable float_of_str : string -> option Q.

(** [float(v)]. *)
Definition py_float (v : pyval) : res Q :=
  match v with
  | PNum q => Val q
  | PBool b => Val (Q_of_bool b)
  | PStr s => match float_of_str s with
              | Some q => Val q
              | None => Exc ValueError
              end
  | _ => Exc TypeError
  end.

(** A call of a method of [self.session]. *)
Definition request (c : call) : M pyval :=
  fun w =>
    let w' := mkWorld (calls w ++ [c]) (divisions w) in
    match session (calls w) c with
    | Returns v => (Val v, w')
    | Raises msg => (Exc (GatewayError msg), w')
    end.

Definition get_account_info : M pyval :=
  catch (request (GetWalletBalance "UNIFIED"))
        (fun _ => ret (PDict [])).

Definition get_symbol_info (symbol : pyval) : M pyval :=
  catch (match symbol with
         | PStr s =>
             response <- request (GetInstrumentsInfo "linear" (replace_slash s)) ;;
             result <- lift (py_getitem response "result") ;;
             lst <- lift (py_getitem result "list") ;;
             if truthy lst then lift (py_getitem0 lst) else ret (PDict [])
         | _ => raise AttributeError
         end)
        (fun _ => ret (PDict [])).

(** The inner loop over [account['coin']], with its [break]. *)
Fixpoint scan_coins (coins : list pyval) (usdt_balance : Q) : res Q :=
  match coins with
  | [] => Val usdt_balance
  | coin :: rest =>
      rbind (py_getitem coin "coin") (fun name =>
      if is_str "USDT" name
      then rbind (py_getitem coin "walletBalance") py_float
      else scan_coins rest usdt_balance)
  end.

(** The outer loop over [account_info['result']['list']]. *)
Fixpoint scan_accounts (accounts : list pyval) (usdt_balance : Q) : res Q :=
  match accounts with
  | [] => Val usdt_balance
  | account :: rest =>
      rbind (py_in "coin" account) (fun has_coin =>
      if has_coin
      then rbind (py_getitem account "coin") (fun cl =>
           rbind (py_iter cl) (fun coins =>
           rbind (scan_coins coins usdt_balance) (fun b =>
           scan_accounts rest b)))
      else scan_accounts rest usdt_balance)
  end.

(** Lines 85-91: the USDT wallet balance found in the account info. *)
Definition find_usdt_balance (account_info : pyval) : res Q :=
  rbind (py_getitem account_info "result") (fun result =>
  rbind (py_getitem result "list") (fun lst =>
  rbind (py_iter lst) (fun accounts =>
  scan_accounts accounts 0%Q))).

(** Lines 109-111: [minOrderQty] and [qtyStep] of the instrument, with their
    defaults. *)
Definition lot_size (symbol_info : pyval) : res (Q * Q) :=
  rbind (py_get symbol_info "lotSizeFilter" (PDict [])) (fun lot_size_filter =>
  rbind (py_get lot_size_filter "minOrderQty" (PNum 0.001)) (fun moq =>
  rbind (py_float moq) (fun min_order_qty =>
  rbind (py_get lot_size_filter "qtyStep" (PNum 0.001)) (fun qs =>
  rbind (py_float qs) (fun qty_step =>
  Val (min_order_qty, qty_step)))))).

Definition min_order_value : Q := 5%Q.

Definition calculate_position_size_body
    (risk_pct stop_loss entry_price symbol_info : pyval) : M Q :=
  account_info <- get_account_info ;;
  if negb (truthy account_info) then ret 0%Q else
  has_result <- lift (py_in "result" account_info) ;;
  if negb has_result then ret 0%Q else
  usdt_balance <- lift (find_usdt_balance account_info) ;;
  if Qeq_bool usdt_balance 0 then ret 0%Q else
  rp <- lift (py_num risk_pct) ;;
  pct <- div rp 100 ;;
  let risk_amount := (usdt_balance * pct)%Q in
  ep <- lift (py_num entry_price) ;;
  sl <- lift (py_num stop_loss) ;;
  let stop_distance := Qabs (ep - sl) in
  if Qeq_bool stop_distance 0 then ret 0%Q else
  position_size <- div risk_amount stop_distance ;;
  lot <- lift (lot_size symbol_info) ;;
  let min_order_qty := fst lot in
  let qty_step := snd lot in
  steps <- floordiv position_size qty_step ;;
  let position_size := (steps * qty_step)%Q in
  let position_size := pymax position_size min_order_qty in
  min_position_size <- div min_order_value ep ;;
  if Qltb (position_size * ep) min_order_value then
    steps' <- floordiv min_position_size qty_step ;;
    let position_size := ((steps' + 1) * qty_step)%Q in
    ret (pymax position_size min_order_qty)
  else ret position_size.

Definition calculate_position_size
    (risk_pct stop_loss entry_price symbol_info : pyval) : M Q :=
  catch (calculate_position_size_body risk_pct stop_loss entry_price symbol_info)
        (fun _ => ret 0%Q).

(** ** Bracket placement *)

(** ["Buy" if side.lower() == "long" else "Sell"] and its opposite. *)
Definition derivatives_side (side : string) : string :=
  if String.eqb (lower side) "long" then "Buy" else "Sell".

Definition opposite_side (side : string) : string :=
  if String.eqb (lower side) "long" then "Sell" else "Buy".

Definition entry_order (bybit_symbol side : string) (qty : Q) (price : pyval) : Order.t :=
  Order.mk "linear" bybit_symbol (derivatives_side side) "Limit" qty
           (Some price) None "GTC" None.

Definition stop_order (bybit_symbol side : string) (qty : Q) (stop_loss : pyval) : Order.t :=
  Order.mk "linear" bybit_symbol (opposite_side side) "Stop" qty
           None (Some stop_loss) "GTC" (Some "LastPrice").

Definition take_profit_order (bybit_symbol tp_side : string) (tp_qty : Q) (price : pyval)
  : Order.t :=
  Order.mk "linear" bybit_symbol tp_side "Limit" tp_qty (Some price) None "GTC" None.

(** [response['result']['orderId']], read for the log line. *)
Definition order_id (response : pyval) : res pyval :=
  rbind (py_getitem response "result") (fun result => py_getitem result "orderId").

(** The loop over [take_profits]; [tp_responses] collects the accepted legs. *)
Fixpoint place_take_profits (bybit_symbol tp_side : string) (qty : Q)
    (take_profits : list pyval) (tp_responses : list pyval) : M (list pyval) :=
  match take_profits with
  | [] => ret tp_responses
  | tp :: rest =>
      sp <- lift (rbind (py_getitem tp "size_pct") py_num) ;;
      frac <- div sp 100 ;;
      let tp_qty := (qty * frac)%Q in
      tp_price <- lift (py_getitem tp "price") ;;
      tp_response <- request (PlaceOrder (take_profit_order bybit_symbol tp_side tp_qty tp_price)) ;;
      rc <- lift (py_getitem tp_response "retCode") ;;
      if py_eq0 rc then
        lift (order_id tp_response) ;;;
        place_take_profits bybit_symbol tp_side qty rest (tp_responses ++ [tp_response])
      else
        place_take_profits bybit_symbol tp_side qty rest tp_responses
  end.

Definition failure (msg : string) : pyval :=
  PDict [("success", PBool false); ("error", PStr msg)].

Definition bracket_result (order_response sl_response : pyval) (tp_responses : list pyval)
  : pyval :=
  PDict [("success", PBool true); ("main_order", order_response);
         ("stop_loss", sl_response); ("take_profits", PList tp_responses)].

Definition as_str (v : pyval) : res string :=
  match v with
  | PStr s => Val s
  | _ => Exc AttributeError
  end.

Definition place_limit_order_body
    (symbol side : pyval) (qty : Q) (price stop_loss take_profits : pyval) : M pyval :=
  sym <- lift (as_str symbol) ;;
  let bybit_symbol := replace_slash sym in
  sd <- lift (as_str side) ;;
  order_response <- request (PlaceOrder (entry_order bybit_symbol sd qty price)) ;;
  rc <- lift (py_getitem order_response "retCode") ;;
  if py_ne0 rc then ret order_response else
  lift (order_id order_response) ;;;
  sl_response <- request (PlaceOrder (stop_order bybit_symbol sd qty stop_loss)) ;;
  sl_rc <- lift (py_getitem sl_response "retCode") ;;
  (if py_eq0 sl_rc then lift (order_id sl_response) ;;; ret tt else ret tt) ;;;
  let tp_side := opposite_side sd in
  tps <- lift (py_iter take_profits) ;;
  tp_responses <- place_take_profits bybit_symbol tp_side qty tps [] ;;
  ret (bracket_result order_response sl_response tp_responses).

Definition place_limit_order
    (symbol side : pyval) (qty : Q) (price stop_loss take_profits : pyval) : M pyval :=
  catch (place_limit_order_body symbol side qty price stop_loss take_profits)
        (fun e => ret (failure (exn_str e))).

(** ** Trade execution *)

(** Python's [str] on a value, used to format error messages. *)
Variable py_str : pyval -> string.

Definition required_fields : list string := ["symbol"; "side"; "limit_plan"; "risk"].

(** The loop over the required fields: the first one absent, if any. *)
Fixpoint first_missing (fields : list string) (trade_data : pyval) : res (option string) :=
  match fields with
  | [] => Val None
  | field :: rest =>
      rbind (py_in field trade_data) (fun present =>
      if present then first_missing rest trade_data else Val (Some field))
  end.

Definition execute_trade_body (trade_data : pyval) : M pyval :=
  lift (py_getitem trade_data "symbol") ;;;
  lift (py_getitem trade_data "side") ;;;
  missing <- lift (first_missing required_fields trade_data) ;;
  match missing with
  | Some field => ret (failure ("Missing required field: " ++ field))
  | None =>
      symbol <- lift (py_getitem trade_data "symbol") ;;
      side <- lift (py_getitem trade_data "side") ;;
      limit_plan <- lift (py_getitem trade_data "limit_plan") ;;
      risk <- lift (py_getitem trade_data "risk") ;;
      symbol_info <- get_symbol_info symbol ;;
      if negb (truthy symbol_info)
      then ret (failure ("Failed to get symbol info for " ++ py_str symbol)) else
      orders <- lift (py_getitem limit_plan "orders") ;;
      order0 <- lift (py_getitem0 orders) ;;
      entry_price <- lift (py_getitem order0 "price") ;;
      stop_loss <- lift (py_getitem limit_plan "stop_loss") ;;
      risk_pct <- lift (py_get risk "risk_per_trade_pct" (PNum 0.4)) ;;
      position_size <- calculate_position_size risk_pct stop_loss entry_price symbol_info ;;
      if Qeq_bool position_size 0
      then ret (failure "Failed to calculate position size") else
      take_profits <- lift (py_getitem limit_plan "take_profits") ;;
      cancel_if <- lift (py_getitem limit_plan "cancel_if") ;;
      lift (py_getitem cancel_if "timeout_min") ;;;
      result <- place_limit_order symbol side position_size entry_price stop_loss take_profits ;;
      success <- lift (py_getitem result "success") ;;
      (if truthy success then ret tt
       else lift (py_get result "error" (PStr "Unknown error")) ;;; ret tt) ;;;
      ret result
  end.

Definition execute_trade (trade_data : pyval) : M pyval :=
  catch (execute_trade_body trade_data)
        (fun e => ret (failure (exn_str e))).

(** ** The webhook handler *)

Definition required_trade_fields : list string :=
  ["action"; "symbol"; "side"; "limit_plan"; "risk"].

Definition is_list (v : pyval) : bool :=
  match v with PList _ => true | _ => false end.

Definition validate_webhook_data_body (data : pyval) : res bool :=
  rbind (py_in "intent" data) (fun has_intent =>
  rbind (if has_intent
         then rbind (py_getitem data "intent") (fun i => Val (negb (is_str "trade_decision" i)))
         else Val true) (fun bad_intent =>
  if bad_intent then Val false else
  rbind (py_in "trade" data) (fun has_trade =>
  if negb has_trade then Val false else
  rbind (py_getitem data "trade") (fun trade =>
  rbind (first_missing required_trade_fields trade) (fun missing =>
  match missing with
  | Some _ => Val false
  | None =>
      rbind (py_getitem trade "limit_plan") (fun limit_plan =>
      rbind (py_in "orders" limit_plan) (fun has_orders =>
      rbind (if has_orders then py_in "stop_loss" limit_plan else Val false) (fun has_sl =>
      rbind (if has_orders && has_sl then py_in "take_profits" limit_plan else Val false)
            (fun has_tp =>
      if negb (has_orders && has_sl && has_tp) then Val false else
      rbind (py_getitem limit_plan "orders") (fun orders =>
      if negb (truthy orders) then Val false else
      rbind (py_getitem limit_plan "orders") (fun orders' =>
      if negb (is_list orders') then Val false else
      rbind (py_getitem limit_plan "take_profits") (fun tps =>
      if negb (truthy tps) then Val false else
      rbind (py_getitem limit_plan "take_profits") (fun tps' =>
      if negb (is_list tps') then Val false else
      Val true))))))))
  end))))).

Definition validate_webhook_data (data : pyval) : bool :=
  match validate_webhook_data_body data with
  | Val b => b
  | Exc _ => false
  end.

(** The task run on the background thread. *)
Definition execute_trade_async (trade_data : pyval) : M unit :=
  catch (trade <- lift (py_getitem trade_data "trade") ;;
         lift (py_getitem trade "symbol") ;;;
         trade' <- lift (py_getitem trade_data "trade") ;;
         result <- execute_trade trade' ;;
         success <- lift (py_getitem result "success") ;;
         ret tt)
        (fun _ => ret tt).

(** What [do_POST] has in hand after reading the request body. *)
Inductive request_body : Type :=
| NoContent
| InvalidJSON
| Parsed (trade_data : pyval).

(** [do_POST]: the status code of the response. The dispatched task is run
    to completion, so that the world records the exchange calls it makes. *)
Definition do_POST (trader_initialized : bool) (body : request_body) : M nat :=
  match body with
  | NoContent => ret 400%nat
  | InvalidJSON => ret 400%nat
  | Parsed trade_data =>
      if negb (validate_webhook_data trade_data) then ret 400%nat
      else if trader_initialized
           then execute_trade_async trade_data ;;; ret 200%nat
           else ret 500%nat
  end.

End Trader.

(** ** Vocabulary of the specification *)

Local Open Scope Q_scope.
Local Open Scope list_scope.


(** The sizer finds no usable USDT balance: the wallet query raises, its
    answer is empty or has no ['result'], the scan of the accounts fails, or
    the balance found is zero. *)
Inductive balance_unavailable
    (session : list call -> call -> reply) (float_of_str : string -> option Q)
    (w : world) : Prop :=
| query_raises msg :
    session (calls w) (GetWalletBalance "UNIFIED") = Raises msg ->
    balance_unavailable session float_of_str w
| info_falsy info :
    session (calls w) (GetWalletBalance "UNIFIED") = Returns info ->
    truthy info = false ->
    balance_unavailable session float_of_str w
| info_without_result info :
    session (calls w) (GetWalletBalance "UNIFIED") = Returns info ->
    py_in "result" info <> Val true ->
    balance_unavailable session float_of_str w
| info_malformed info e :
    session (calls w) (GetWalletBalance "UNIFIED") = Returns info ->
    find_usdt_balance float_of_str info = Exc e ->
    balance_unavailable session float_of_str w
| balance_zero info b :
    session (calls w) (GetWalletBalance "UNIFIED") = Returns info ->
    find_usdt_balance float_of_str info = Val b ->
    b == 0 ->
    balance_unavailable session float_of_str w.

(** The stop distance [|entry_price - stop_loss|] is zero. *)
Definition stop_distance_zero (entry_price stop_loss : pyval) : Prop :=
  exists e s, py_num entry_price = Val e /\ py_num stop_loss = Val s /\
              Qabs (e - s) == 0.

(** A take-profit entry [tp] read as a leg: its [size_pct] as a number and
    its [price]. *)
Definition leg_of (tp : pyval) (l : Q * pyval) : Prop :=
  rbind (py_getitem tp "size_pct") py_num = Val (fst l) /\
  py_getitem tp "price" = Val (snd l).

(** The quantity and the order submitted for a leg of an entry of [qty]. *)
Definition leg_qty (qty : Q) (l : Q * pyval) : Q := qty * (fst l / 100).

Definition leg_order (bybit_symbol tp_side : string) (qty : Q) (l : Q * pyval) : call :=
  PlaceOrder (take_profit_order bybit_symbol tp_side (leg_qty qty l) (snd l)).

Definition Qsum (l : list Q) : Q := fold_right Qplus 0 l.

(** The calls made between two worlds, and among the calls of a bracket
    those that follow the entry and the stop-loss. *)
Definition calls_since (w w' : world) : list call :=
  skipn (length (calls w)) (calls w').

Definition take_profit_calls (w w' : world) : list call :=
  skipn 2 (calls_since w w').

(** The gateway contract of the specification: [placeOrder] answers with a
    return code, and with an order id when the code is 0. *)
Definition gateway_contract (session : list call -> call -> reply) : Prop :=
  forall h o, exists r rc,
    session h (PlaceOrder o) = Returns r /\
    py_getitem r "retCode" = Val rc /\
    (py_ne0 rc = false -> exists oid, order_id r = Val oid).

Definition well_formed_take_profit (tp : pyval) : Prop :=
  exists l, leg_of tp l.

Definition order_side (c : call) : option string :=
  match c with
  | PlaceOrder o => Some (Order.side o)
  | _ => None
  end.

(** The required-field check of the specification on a trade payload:
    symbol, side, limit_plan and risk are present, and limit_plan carries a
    non-empty [orders] sequence, a [stop_loss] and a non-empty
    [take_profits] sequence. *)
Definition nonempty_sequence (limit_plan : pyval) (k : string) : Prop :=
  exists x xs, py_getitem limit_plan k = Val (PList (x :: xs)).

Definition required_fields_ok (trade : pyval) : Prop :=
  (forall f, In f required_fields -> py_in f trade = Val true) /\
  exists limit_plan,
    py_getitem trade "limit_plan" = Val limit_plan /\
    nonempty_sequence limit_plan "orders" /\
    py_in "stop_loss" limit_plan = Val true /\
    nonempty_sequence limit_plan "take_profits".

(** No order is placed between [w] and [w']. *)
Definition quiet (w w' : world) : Prop :=
  exists pre, calls w' = calls w ++ pre /\ Forall (fun c => order_side c = None) pre.

(** A session that answers every order with a non-zero return code and a
    payload in the exchange's shape, which has no ['success'] key. *)
Definition rejects_orders (session : list call -> call -> reply) : Prop :=
  forall h o, exists resp rc,
    session h (PlaceOrder o) = Returns resp /\
    py_getitem resp "retCode" = Val rc /\
    py_ne0 rc = true /\
    py_in "success" resp = Val false.

(** ** Sample exchange data *)

(** A wallet answer in the shape of the exchange's: one account holding BTC
    and [b] USDT. *)
Definition wallet_response (b : Q) : pyval :=
  PDict [("retCode", PNum 0);
         ("result", PDict [("list", PList [PDict [("coin", PList [
            PDict [("coin", PStr "BTC"); ("walletBalance", PNum 3)];
            PDict [("coin", PStr "USDT"); ("walletBalance", PNum b)]])]])])].

Definition symbol_info_of (min_order_qty qty_step : Q) : pyval :=
  PDict [("symbol", PStr "HYPEUSDT");
         ("lotSizeFilter", PDict [("minOrderQty", PNum min_order_qty);
                                  ("qtyStep", PNum qty_step)])].

Definition no_float : string -> option Q := fun _ => None.

(** A session that only answers the wallet query. *)
Definition wallet_session (b : Q) : list call -> call -> reply :=
  fun _ c =>
    match c with
    | GetWalletBalance _ => Returns (wallet_response b)
    | _ => Raises "unexpected call"
    end.

Definition accept_response : pyval :=
  PDict [("retCode", PNum 0); ("retMsg", PStr "OK");
         ("result", PDict [("orderId", PStr "1")])].

Definition reject_response : pyval :=
  PDict [("retCode", PNum 10001); ("retMsg", PStr "rejected"); ("result", PDict [])].

Definition instruments_response : pyval :=
  PDict [("retCode", PNum 0);
         ("result", PDict [("list", PList [symbol_info_of 0.001 0.001])])].

(** A session with 1000 USDT whose answer to an order is given by [place]. *)
Definition sample_session (place : Order.t -> pyval) : list call -> call -> reply :=
  fun _ c =>
    match c with
    | GetWalletBalance _ => Returns (wallet_response 1000)
    | GetInstrumentsInfo _ _ => Returns instruments_response
    | PlaceOrder o => Returns (place o)
    end.

Definition accept_all : Order.t -> pyval := fun _ => accept_response.

Definition reject_all : Order.t -> pyval := fun _ => reject_response.

Definition reject_stop : Order.t -> pyval :=
  fun o => if String.eqb (Order.orderType o) "Stop" then reject_response
           else accept_response.

Definition sample_take_profits : list pyval :=
  [PDict [("price", PNum 45.1464); ("size_pct", PNum 30)];
   PDict [("price", PNum 45.5516); ("size_pct", PNum 40)];
   PDict [("price", PNum 45.9064); ("size_pct", PNum 30)]].

(** The sample trade of [main], with a given [limit_plan]. *)
Definition trade_with (limit_plan : pyval) : pyval :=
  PDict [("action", PStr "open_limit"); ("symbol", PStr "HYPE/USDT");
         ("side", PStr "long");
         ("risk", PDict [("risk_per_trade_pct", PNum 0.4)]);
         ("limit_plan", limit_plan)].

Definition sample_limit_plan (take_profits : list pyval) : pyval :=
  PDict [("orders", PList [PDict [("price", PNum 44.64); ("size_pct", PNum 100)]]);
         ("stop_loss", PNum 44.1336);
         ("take_profits", PList take_profits);
         ("cancel_if", PDict [("timeout_min", PNum 120)])].

Definition sample_trade : pyval := trade_with (sample_limit_plan sample_take_profits).

Definition no_str : pyval -> string := fun _ => "".

(** ** Further sample data *)

Definition two_account_wallet : pyval :=
  PDict [("result", PDict [("list", PList [
     PDict [("coin", PList [PDict [("coin", PStr "USDT"); ("walletBalance", PNum 7)]])];
     PDict [("coin", PList [PDict [("coin", PStr "BTC"); ("walletBalance", PNum 3)];
                            PDict [("coin", PStr "USDT"); ("walletBalance", PNum 250)];
                            PDict [("coin", PStr "USDT"); ("walletBalance", PNum 9)];
                            PNone])]])])].

Definition btc_only_wallet : pyval :=
  PDict [("result", PDict [("list", PList [
     PDict [("accountType", PStr "UNIFIED")];
     PDict [("coin", PList [PDict [("coin", PStr "BTC"); ("walletBalance", PNum 3)]])]])])].

(** A session that accepts orders, except that a stop order makes the
    gateway raise. *)
Definition stop_raises_session : list call -> call -> reply :=
  fun h c =>
    match c with
    | PlaceOrder o =>
        if String.eqb (Order.orderType o) "Stop" then Raises "timed out"
        else Returns accept_response
    | _ => sample_session accept_all h c
    end.

(** A limit plan without [cancel_if]. *)
Definition plan_without_cancel_if : pyval :=
  PDict [("orders", PList [PDict [("price", PNum 44.64); ("size_pct", PNum 100)]]);
         ("stop_loss", PNum 44.1336);
         ("take_profits", PList sample_take_profits)].

(** A session whose wallet query raises. *)
Definition wallet_raises_session : list call -> call -> reply :=
  fun h c =>
    match c with
    | GetWalletBalance _ => Raises "timed out"
    | _ => sample_session accept_all h c
    end.

(** ** Further vocabulary *)

(** A coin entry that is read without error and is not USDT. *)
Definition non_usdt_coin (coin : pyval) : Prop :=
  exists name, py_getitem coin "coin" = Val name /\ is_str "USDT" name = false.

(** An account that holds no USDT: it has no ['coin'] key, or none of its
    coins is USDT. *)
Definition account_without_usdt (account : pyval) : Prop :=
  py_in "coin" account = Val false \/
  exists cl coins,
    py_in "coin" account = Val true /\
    py_getitem account "coin" = Val cl /\
    py_iter cl = Val coins /\
    Forall non_usdt_coin coins.

(** An answer of the exchange that reports success: return code 0 and an
    order id. *)
Definition accepted (r : pyval) : Prop :=
  exists rc oid,
    py_getitem r "retCode" = Val rc /\ py_ne0 rc = false /\ order_id r = Val oid.

(** The string has no ['/']. *)
Definition no_slash (s : string) : Prop :=
  ~ In "/"%char (list_ascii_of_string s).

(** The structure [validate_webhook_data] accepts. *)
Definition webhook_data_ok (data : pyval) : Prop :=
  py_getitem data "intent" = Val (PStr "trade_decision") /\
  exists trade,
    py_getitem data "trade" = Val trade /\
    py_in "action" trade = Val true /\
    required_fields_ok trade.

(** The exchange calls of a trade, in order: nothing; or the instrument
    query alone; or the instrument query, the wallet query and then orders
    only. *)
Definition exchange_trace (w w' : world) : Prop :=
  exists tr,
    calls w' = calls w ++ tr /\
    (tr = [] \/
     exists s,
       tr = [GetInstrumentsInfo "linear" s] \/
       exists os,
         tr = GetInstrumentsInfo "linear" s :: GetWalletBalance "UNIFIED"
                :: map PlaceOrder os).

(** ** Arithmetic of the sizer *)



Lemma Qeq_bool_false_neq a b : Qeq_bool a b = false <-> ~ a == b.
Proof.
  split; intro H.
  - apply Qeq_bool_neq. exact H.
  - destruct (Qeq_bool a b) eqn:E; [|reflexivity].
    apply Qeq_bool_iff in E. contradiction.
Qed.




(** ** Running the sizer *)

Ltac run :=
  cbv beta iota zeta delta
      [bind lift ret raise catch request div floordiv min_order_value negb fst snd];
  cbn [calls divisions].

Section SizerRuns.

Variable session : list call -> call -> reply.
Variable float_of_str : string -> option Q.

Lemma find_usdt_balance_has_result info b :
  find_usdt_balance float_of_str info = Val b ->
  truthy info = true /\ py_in "result" info = Val true.
Proof.
  unfold find_usdt_balance. destruct info as [| | | | |d]; simpl; try discriminate.
  destruct (dict_get d "result") eqn:E; simpl; [|discriminate].
  intros _. split; [|reflexivity].
  destruct d; [discriminate E | reflexivity].
Qed.

(** The run of the sizer when a non-zero balance is found, the stop distance
    is not zero, and neither the step nor the entry price is zero. *)
Lemma calculate_position_size_run w info b r s e si mn st :
  session (calls w) (GetWalletBalance "UNIFIED") = Returns info ->
  find_usdt_balance float_of_str info = Val b ->
  Qeq_bool b 0 = false ->
  Qeq_bool (Qabs (e - s)) 0 = false ->
  lot_size float_of_str si = Val (mn, st) ->
  Qeq_bool st 0 = false ->
  Qeq_bool e 0 = false ->
  let raw := (b * (r / 100)) / Qabs (e - s) in
  let q := pymax (inject_Z (Qfloor (raw / st)) * st) mn in
  let q' := pymax ((inject_Z (Qfloor (5 / e / st)) + 1) * st) mn in
  calculate_position_size session float_of_str (PNum r) (PNum s) (PNum e) si w =
  (Val (if Qltb (q * e) 5 then q' else q),
   mkWorld (calls w ++ [GetWalletBalance "UNIFIED"])
           (divisions w
              ++ [(r, 100); (b * (r / 100), Qabs (e - s)); (raw, st); (5, e)]
              ++ if Qltb (q * e) 5 then [(5 / e, st)] else [])).
Proof.
  intros Hs Hb Hb0 Hd Hl Hst He raw q q'.
  destruct (find_usdt_balance_has_result _ _ Hb) as [Ht Hr].
  unfold calculate_position_size, calculate_position_size_body, get_account_info.
  run. rewrite Hs. run. rewrite Ht, Hr. run. rewrite Hb. run. rewrite Hb0.
  cbv beta iota zeta delta [py_num].
  change (Qeq_bool 100 0) with false. run.
  rewrite Hd, Hl. run. rewrite Hst, He. run.
  fold raw. fold q. fold q'.
  destruct (Qltb (q * e) 5); cbn [calls divisions];
    repeat rewrite <- app_assoc; reflexivity.
Qed.

End SizerRuns.

(** ** The position sizer: claims *)


Lemma neq_nonzero q : ~ q == 0 -> Qeq_bool q 0 = false.
Proof. apply Qeq_bool_false_neq. Qed.







(** C9: balance 1000 USDT, risk 0.4 %, entry 44.64, stop 44.1336, step and
    minimum quantity 0.001. The sizer divides 0.4 by 100, the risk amount 4
    by the stop distance 0.5064, floors the raw quantity to 7898 steps,
    finds the notional at least 5 and returns 7.898. *)
Theorem sizing_scenario :
  forall session float_of_str w info si,
    session (calls w) (GetWalletBalance "UNIFIED") = Returns info ->
    find_usdt_balance float_of_str info = Val 1000 ->
    lot_size float_of_str si = Val (0.001, 0.001) ->
    let risk_amount := 1000 * (0.4 / 100) in
    let stop_distance := Qabs (44.64 - 44.1336) in
    let raw := risk_amount / stop_distance in
    exists q w',
      calculate_position_size session float_of_str
        (PNum 0.4) (PNum 44.1336) (PNum 44.64) si w = (Val q, w') /\
      divisions w' = (divisions w ++ [(0.4, 100); (risk_amount, stop_distance);
                                      (raw, 0.001); (5, 44.64)])%list /\
      risk_amount == 4 /\ stop_distance == 0.5064 /\
      Qfloor (raw / 0.001) = 7898%Z /\
      q == 7.898 /\ 5 <= q * 44.64.
Proof.
  intros session fos w info si Hs Hb Hl risk_amount stop_distance raw.
  rewrite (calculate_position_size_run session fos w info 1000 0.4 44.1336 44.64 si
             0.001 0.001 Hs Hb eq_refl eq_refl Hl eq_refl eq_refl).
  fold risk_amount. fold stop_distance. fold raw.
  assert (Hfloor : Qfloor (raw / 0.001) = 7898%Z) by (vm_compute; reflexivity).
  rewrite Hfloor.
  assert (Hno : Qltb (pymax (inject_Z 7898 * 0.001) 0.001 * 44.64) 5 = false)
    by (vm_compute; reflexivity).
  rewrite Hno.
  eexists. eexists. split; [reflexivity|].
  cbn [divisions]. rewrite app_nil_r.
  repeat split; try reflexivity.
  vm_compute. discriminate.
Qed.

Lemma sizing_scenario_witness :
  exists q w',
    calculate_position_size (wallet_session 1000) no_float
      (PNum 0.4) (PNum 44.1336) (PNum 44.64) (symbol_info_of 0.001 0.001) world0
      = (Val q, w') /\
    divisions w' = (divisions world0 ++
                    [(0.4, 100); (1000 * (0.4 / 100), Qabs (44.64 - 44.1336));
                     (1000 * (0.4 / 100) / Qabs (44.64 - 44.1336), 0.001); (5, 44.64)])%list /\
    1000 * (0.4 / 100) == 4 /\ Qabs (44.64 - 44.1336) == 0.5064 /\
    Qfloor (1000 * (0.4 / 100) / Qabs (44.64 - 44.1336) / 0.001) = 7898%Z /\
    q == 7.898 /\ 5 <= q * 44.64.
Proof.
  apply (sizing_scenario (wallet_session 1000) no_float world0
           (wallet_response 1000) (symbol_info_of 0.001 0.001)).
  - reflexivity.
  - reflexivity.
  - reflexivity.
Defined.

(** C3: when no usable USDT balance is found, or the stop distance is zero,
    the sizer returns the zero sentinel. The only division it may have
    evaluated by then is [risk_pct / 100]: no divisor is zero, and
    [risk_amount / stop_distance] is not evaluated. *)
Theorem zero_sentinel_without_zero_division :
  forall session float_of_str risk_pct stop_loss entry_price si w,
    balance_unavailable session float_of_str w \/
    stop_distance_zero entry_price stop_loss ->
    exists ds,
      calculate_position_size session float_of_str risk_pct stop_loss entry_price si w
        = (Val 0, mkWorld (calls w ++ [GetWalletBalance "UNIFIED"]) (divisions w ++ ds)) /\
      (ds = [] \/ exists rp, ds = [(rp, 100)]) /\
      Forall (fun nd => ~ snd nd == 0) ds.
Proof.
  intros session fos risk_pct stop_loss entry_price si w H.
  assert (Hdone : exists ds,
             (Val 0, mkWorld (calls w ++ [GetWalletBalance "UNIFIED"]) (divisions w))
             = (Val 0, mkWorld (calls w ++ [GetWalletBalance "UNIFIED"])
                               (divisions w ++ ds)) /\
             (ds = [] \/ exists rp, ds = [(rp, 100)]) /\
             Forall (fun nd => ~ snd nd == 0) ds).
  { exists []. rewrite app_nil_r.
    split; [reflexivity | split; [left; reflexivity | constructor]]. }
  unfold calculate_position_size, calculate_position_size_body, get_account_info.
  run.
  destruct (session (calls w) (GetWalletBalance "UNIFIED")) as [info|msg] eqn:Hs; run;
    [|exact Hdone].
  destruct (truthy info) eqn:Ht; run; [|exact Hdone].
  destruct (py_in "result" info) as [[|]|x] eqn:Hr; run; [|exact Hdone|exact Hdone].
  destruct (find_usdt_balance fos info) as [b|x] eqn:Hb; run; [|exact Hdone].
  destruct (Qeq_bool b 0) eqn:Hb0; run; [exact Hdone|].
  destruct H as [H | [e [s [He [Hsl Hd]]]]].
  { exfalso. destruct H as [msg H | i H Hf | i H Hn | i x H Hf | i b' H Hf Hz];
      rewrite Hs in H; try discriminate H; injection H as <-.
    - congruence.
    - congruence.
    - congruence.
    - rewrite Hb in Hf. injection Hf as <-.
      apply Qeq_bool_false_neq in Hb0. contradiction. }
  destruct (py_num risk_pct) as [rp|x] eqn:Hrp; run; [|exact Hdone].
  change (Qeq_bool 100 0) with false. run.
  rewrite He, Hsl. run.
  assert (Hz : Qeq_bool (Qabs (e - s)) 0 = true) by (apply Qeq_bool_iff; exact Hd).
  rewrite Hz. run.
  exists [(rp, 100)]. split; [reflexivity|].
  split; [right; exists rp; reflexivity|].
  constructor; [|constructor]. simpl. intro E. discriminate E.
Qed.

Lemma zero_sentinel_without_zero_division_witness :
  exists ds,
    calculate_position_size (wallet_session 1000) no_float
      (PNum 0.4) (PNum 10) (PNum 10) (symbol_info_of 0.001 0.001) world0
      = (Val 0, mkWorld (calls world0 ++ [GetWalletBalance "UNIFIED"])
                        (divisions world0 ++ ds)) /\
    (ds = [] \/ exists rp, ds = [(rp, 100)]) /\
    Forall (fun nd => ~ snd nd == 0) ds.
Proof.
  apply (zero_sentinel_without_zero_division (wallet_session 1000) no_float
           (PNum 0.4) (PNum 10) (PNum 10) (symbol_info_of 0.001 0.001) world0).
  right. exists 10, 10. repeat split.
Defined.

(** ** Running the bracket placer *)

Lemma Qsum_leg_qty qty legs :
  Qsum (map (leg_qty qty) legs) == qty * Qsum (map fst legs) / 100.
Proof.
  induction legs as [|l legs IH]; simpl.
  - unfold Qdiv. rewrite Qmult_0_r, Qmult_0_l. reflexivity.
  - rewrite IH. unfold leg_qty. field.
Qed.

Section BracketRuns.

Variable session : list call -> call -> reply.

(** The loop over the take-profits submits, in order, the legs of a prefix
    of the list, and of the whole list when it runs to its end. *)
Lemma place_take_profits_shape sym tp_side qty :
  forall tps acc w,
    exists legs,
      calls (snd (place_take_profits session sym tp_side qty tps acc w))
        = (calls w ++ map (leg_order sym tp_side qty) legs)%list /\
      Forall2 leg_of (firstn (length legs) tps) legs /\
      (forall r, fst (place_take_profits session sym tp_side qty tps acc w) = Val r ->
                 length legs = length tps).
Proof.
  induction tps as [|tp tps IH]; intros acc w.
  - exists []. cbn. rewrite app_nil_r. repeat split; constructor.
  - assert (Hstop : forall e : exn,
               exists legs,
                 calls w = (calls w ++ map (leg_order sym tp_side qty) legs)%list /\
                 Forall2 leg_of (firstn (length legs) (tp :: tps)) legs /\
                 (forall r, @Exc (list pyval) e = Val r ->
                            length legs = length (tp :: tps))).
    { intros e. exists []. cbn. rewrite app_nil_r.
      split; [reflexivity | split; [constructor | discriminate]]. }
    cbn [place_take_profits]. run.
    destruct (rbind (py_getitem tp "size_pct") py_num) as [sp|e] eqn:Hsp; run;
      [|apply Hstop].
    change (Qeq_bool 100 0) with false. run.
    destruct (py_getitem tp "price") as [p|e] eqn:Hp; run; [|apply Hstop].
    assert (Hleg : leg_of tp (sp, p)) by (split; assumption).
    change (PlaceOrder (take_profit_order sym tp_side (qty * (sp / 100)) p))
      with (leg_order sym tp_side qty (sp, p)).
    assert (Hone : forall e : exn,
               exists legs,
                 (calls w ++ [leg_order sym tp_side qty (sp, p)])%list
                   = (calls w ++ map (leg_order sym tp_side qty) legs)%list /\
                 Forall2 leg_of (firstn (length legs) (tp :: tps)) legs /\
                 (forall r, @Exc (list pyval) e = Val r ->
                            length legs = length (tp :: tps))).
    { intros e. exists [(sp, p)]. cbn.
      split; [reflexivity | split; [constructor; [exact Hleg | constructor] | discriminate]]. }
    assert (Hgo : forall acc',
               exists legs,
                 calls (snd (place_take_profits session sym tp_side qty tps acc'
                               (mkWorld (calls w ++ [leg_order sym tp_side qty (sp, p)])
                                        (divisions w ++ [(sp, 100)]))))
                   = (calls w ++ map (leg_order sym tp_side qty) legs)%list /\
                 Forall2 leg_of (firstn (length legs) (tp :: tps)) legs /\
                 (forall r, fst (place_take_profits session sym tp_side qty tps acc'
                               (mkWorld (calls w ++ [leg_order sym tp_side qty (sp, p)])
                                        (divisions w ++ [(sp, 100)]))) = Val r ->
                            length legs = length (tp :: tps))).
    { intros acc'.
      destruct (IH acc' (mkWorld (calls w ++ [leg_order sym tp_side qty (sp, p)])
                                 (divisions w ++ [(sp, 100)])))
        as [legs [Hc [Hf Hr]]].
      exists ((sp, p) :: legs). rewrite Hc. cbn [calls map length firstn].
      rewrite <- app_assoc. split; [reflexivity|].
      split; [constructor; assumption|].
      intros r Hv. rewrite (Hr r Hv). reflexivity. }
    destruct (session (calls w) (leg_order sym tp_side qty (sp, p))) as [resp|msg]; run;
      [|apply Hone].
    destruct (py_getitem resp "retCode") as [rc|e]; run; [|apply Hone].
    destruct (py_eq0 rc); run.
    + destruct (order_id resp) as [oid|e]; run.
      * exact (Hgo _).
      * apply Hone.
    + exact (Hgo _).
Qed.

Lemma failure_not_bracket msg o s t : failure msg <> bracket_result o s t.
Proof. unfold failure, bracket_result. intro H. discriminate H. Qed.

Lemma with_ret_code_not_bracket r rc o s t :
  py_getitem r "retCode" = Val rc -> r <> bracket_result o s t.
Proof. intros H ->. discriminate H. Qed.

(** The calls of a bracket placement: the entry alone; or the entry and the
    stop-loss; or those two followed by the legs of a prefix of the
    take-profits, all of them when the bracket result is returned. *)
Lemma place_limit_order_shape sym sd qty price sl take_profits w :
  let entry := PlaceOrder (entry_order (replace_slash sym) sd qty price) in
  let stop := PlaceOrder (stop_order (replace_slash sym) sd qty sl) in
  exists r w',
    place_limit_order session (PStr sym) (PStr sd) qty price sl take_profits w
      = (Val r, w') /\
    ((calls w' = (calls w ++ [entry])%list /\
      forall o s t, r <> bracket_result o s t) \/
     (calls w' = (calls w ++ [entry; stop])%list /\
      forall o s t, r <> bracket_result o s t) \/
     (exists tps legs,
        py_iter take_profits = Val tps /\
        calls w' = (calls w ++ [entry; stop]
                      ++ map (leg_order (replace_slash sym) (opposite_side sd) qty) legs)%list /\
        Forall2 leg_of (firstn (length legs) tps) legs /\
        (forall o s t, r = bracket_result o s t -> length legs = length tps))).
Proof.
  intros entry stop.
  unfold place_limit_order, place_limit_order_body. run.
  cbv beta iota delta [as_str]. run. fold entry.
  destruct (session (calls w) entry) as [order_response|msg]; run.
  2:{ eexists. eexists. split; [reflexivity|]. left.
      split; [reflexivity | intros; apply failure_not_bracket]. }
  destruct (py_getitem order_response "retCode") as [rc|e] eqn:Hrc; run.
  2:{ eexists. eexists. split; [reflexivity|]. left.
      split; [reflexivity | intros; apply failure_not_bracket]. }
  destruct (py_ne0 rc); run.
  { eexists. eexists. split; [reflexivity|]. left.
    split; [reflexivity | intros; apply (with_ret_code_not_bracket _ _ _ _ _ Hrc)]. }
  destruct (order_id order_response) as [oid|e]; run.
  2:{ eexists. eexists. split; [reflexivity|]. left.
      split; [reflexivity | intros; apply failure_not_bracket]. }
  fold stop.
  assert (Htwo : forall e : exn, forall d,
             exists r w',
               (Val (failure (exn_str e)),
                mkWorld ((calls w ++ [entry]) ++ [stop]) d) = (Val r, w') /\
               ((calls w' = (calls w ++ [entry])%list /\
                 forall o s t, r <> bracket_result o s t) \/
                (calls w' = (calls w ++ [entry; stop])%list /\
                 forall o s t, r <> bracket_result o s t) \/
                (exists tps legs,
                   py_iter take_profits = Val tps /\
                   calls w' = (calls w ++ [entry; stop]
                      ++ map (leg_order (replace_slash sym) (opposite_side sd) qty) legs)%list /\
                   Forall2 leg_of (firstn (length legs) tps) legs /\
                   (forall o s t, r = bracket_result o s t -> length legs = length tps)))).
  { intros e d. eexists. eexists. split; [reflexivity|]. right. left.
    cbn [calls]. rewrite <- app_assoc.
    split; [reflexivity | intros; apply failure_not_bracket]. }
  destruct (session (calls w ++ [entry]) stop) as [sl_response|msg]; run;
    [|apply Htwo].
  destruct (py_getitem sl_response "retCode") as [sl_rc|e]; run; [|apply Htwo].
  destruct (py_eq0 sl_rc); run;
    [destruct (order_id sl_response) as [oid'|e]; run; [|apply Htwo] |];
    (destruct (py_iter take_profits) as [tps|e]; run; [|apply Htwo];
     match goal with
     | |- context [place_take_profits ?a ?b ?c ?d ?e ?f ?g] =>
         destruct (place_take_profits_shape b c d e f g) as [legs [Hc [Hf Hr]]];
         destruct (place_take_profits a b c d e f g) as [[tp_responses|e'] w2]
     end;
     cbn [fst snd calls] in Hc, Hr;
     eexists; eexists; (split; [reflexivity|]); right; right;
     exists tps, legs; (split; [reflexivity|]);
     rewrite Hc; repeat rewrite <- app_assoc; (split; [reflexivity|]);
     (split; [exact Hf|]);
     [intros _ _ _ _; apply (Hr tp_responses eq_refl)
     |intros o s t H; exfalso; apply (failure_not_bracket _ _ _ _ H)]).
Qed.

End BracketRuns.

Lemma skipn_length_app {A} (l x : list A) : skipn (length l) (l ++ x) = x.
Proof. induction l as [|a l IH]; [reflexivity | exact IH]. Qed.

(** Under the gateway contract the loop over well-formed take-profits runs
    to its end. *)
Lemma place_take_profits_completes session sym tp_side qty :
  gateway_contract session ->
  forall tps, Forall well_formed_take_profit tps ->
  forall acc w, exists r,
    fst (place_take_profits session sym tp_side qty tps acc w) = Val r.
Proof.
  intros Hg tps Htps. induction Htps as [|tp tps [[sp p] [Hsp Hp]] _ IH]; intros acc w.
  - exists acc. reflexivity.
  - cbn [fst snd] in Hsp, Hp. cbn [place_take_profits]. run.
    rewrite Hsp. run. change (Qeq_bool 100 0) with false. run. rewrite Hp. run.
    destruct (Hg (calls w) (take_profit_order sym tp_side (qty * (sp / 100)) p))
      as [resp [rc [Hs [Hrc Hid]]]].
    rewrite Hs. run. rewrite Hrc. run.
    unfold py_eq0. destruct (py_ne0 rc); run.
    + apply IH.
    + destruct (Hid eq_refl) as [oid Hoid]. rewrite Hoid. run. apply IH.
Qed.

(** A rejected entry ends the placement at once. *)
Lemma place_limit_order_entry_rejected
    session sym sd qty price stop_loss take_profits w order_response rc :
  session (calls w) (PlaceOrder (entry_order (replace_slash sym) sd qty price))
    = Returns order_response ->
  py_getitem order_response "retCode" = Val rc ->
  py_ne0 rc = true ->
  place_limit_order session (PStr sym) (PStr sd) qty price stop_loss take_profits w
    = (Val order_response,
       mkWorld (calls w ++ [PlaceOrder (entry_order (replace_slash sym) sd qty price)])
               (divisions w)).
Proof.
  intros Hs Hrc Hne.
  unfold place_limit_order, place_limit_order_body. run.
  cbv beta iota delta [as_str]. run.
  rewrite Hs. run. rewrite Hrc. run. rewrite Hne. reflexivity.
Qed.

(** ** The bracket placer: claims *)

(** C4: when the exchange answers the entry order with a non-zero return
    code, [place_limit_order] returns that answer and the entry order is the
    only call made: no stop-loss and no take-profit is submitted. *)
Theorem entry_rejection_aborts :
  forall session sym sd qty price stop_loss take_profits w order_response rc,
    session (calls w) (PlaceOrder (entry_order (replace_slash sym) sd qty price))
      = Returns order_response ->
    py_getitem order_response "retCode" = Val rc ->
    py_ne0 rc = true ->
    place_limit_order session (PStr sym) (PStr sd) qty price stop_loss take_profits w
      = (Val order_response,
         mkWorld (calls w ++ [PlaceOrder (entry_order (replace_slash sym) sd qty price)])
                 (divisions w)).
Proof.
  intros session sym sd qty price stop_loss take_profits w order_response rc Hs Hrc Hne.
  apply (place_limit_order_entry_rejected session sym sd qty price stop_loss take_profits
           w order_response rc Hs Hrc Hne).
Qed.

Lemma entry_rejection_aborts_witness :
  place_limit_order (sample_session reject_all) (PStr "HYPE/USDT") (PStr "long")
    7.898 (PNum 44.64) (PNum 44.1336) (PList sample_take_profits) world0
  = (Val reject_response,
     mkWorld (calls world0 ++
              [PlaceOrder (entry_order (replace_slash "HYPE/USDT") "long" 7.898 (PNum 44.64))])
             (divisions world0)).
Proof.
  apply (entry_rejection_aborts (sample_session reject_all) "HYPE/USDT" "long"
           7.898 (PNum 44.64) (PNum 44.1336) (PList sample_take_profits) world0
           reject_response (PNum 10001)).
  - reflexivity.
  - reflexivity.
  - reflexivity.
Defined.

(** C5: when the entry is accepted and the stop-loss is answered with a
    non-zero return code, every take-profit is still submitted, in order,
    whatever the answers to the take-profits are, and the result carries
    [success = True]. The gateway answers as its contract says and the
    take-profit entries carry a numeric [size_pct] and a [price]. *)
Theorem stop_loss_rejection_does_not_block :
  forall session sym sd qty price stop_loss tps w order_response rc sl_response sl_rc,
    gateway_contract session ->
    Forall well_formed_take_profit tps ->
    let entry := PlaceOrder (entry_order (replace_slash sym) sd qty price) in
    let stop := PlaceOrder (stop_order (replace_slash sym) sd qty stop_loss) in
    session (calls w) entry = Returns order_response ->
    py_getitem order_response "retCode" = Val rc ->
    py_ne0 rc = false ->
    session (calls w ++ [entry]) stop = Returns sl_response ->
    py_getitem sl_response "retCode" = Val sl_rc ->
    py_ne0 sl_rc = true ->
    exists tp_responses legs w',
      place_limit_order session (PStr sym) (PStr sd) qty price stop_loss (PList tps) w
        = (Val (bracket_result order_response sl_response tp_responses), w') /\
      py_getitem (bracket_result order_response sl_response tp_responses) "success"
        = Val (PBool true) /\
      Forall2 leg_of tps legs /\
      calls w' = (calls w ++ [entry; stop]
                    ++ map (leg_order (replace_slash sym) (opposite_side sd) qty) legs)%list.
Proof.
  intros session sym sd qty price stop_loss tps w order_response rc sl_response sl_rc
         Hg Htps entry stop Hs Hrc Hacc Hss Hsrc Hrej.
  destruct (Hg (calls w) (entry_order (replace_slash sym) sd qty price))
    as [r0 [rc0 [Hs0 [Hrc0 Hid]]]].
  fold entry in Hs0. rewrite Hs in Hs0. injection Hs0 as <-.
  rewrite Hrc in Hrc0. injection Hrc0 as <-.
  destruct (Hid Hacc) as [oid Hoid].
  destruct (place_take_profits_completes session (replace_slash sym) (opposite_side sd) qty
              Hg tps Htps []
              (mkWorld ((calls w ++ [entry]) ++ [stop]) (divisions w)))
    as [tp_responses Hdone].
  destruct (place_take_profits_shape session (replace_slash sym) (opposite_side sd) qty
              tps [] (mkWorld ((calls w ++ [entry]) ++ [stop]) (divisions w)))
    as [legs [Hc [Hf Hr]]].
  specialize (Hr tp_responses Hdone).
  rewrite Hr, firstn_all in Hf.
  unfold place_limit_order, place_limit_order_body. run.
  cbv beta iota delta [as_str py_iter]. run. fold entry.
  rewrite Hs. run. rewrite Hrc. run. rewrite Hacc, Hoid. run. fold stop.
  rewrite Hss. run. rewrite Hsrc. run.
  unfold py_eq0. rewrite Hrej. run.
  destruct (place_take_profits session (replace_slash sym) (opposite_side sd) qty tps []
              (mkWorld ((calls w ++ [entry]) ++ [stop]) (divisions w)))
    as [r2 w2].
  cbn [fst snd] in Hdone, Hc. subst r2.
  exists tp_responses, legs, w2.
  split; [reflexivity|]. split; [reflexivity|]. split; [exact Hf|].
  rewrite Hc. cbn [calls]. repeat rewrite <- app_assoc. reflexivity.
Qed.

Lemma reject_stop_contract : gateway_contract (sample_session reject_stop).
Proof.
  intros h o. unfold sample_session, reject_stop.
  destruct (String.eqb (Order.orderType o) "Stop").
  - exists reject_response, (PNum 10001).
    split; [reflexivity | split; [reflexivity | discriminate]].
  - exists accept_response, (PNum 0).
    split; [reflexivity | split; [reflexivity |]].
    intros _. exists (PStr "1"). reflexivity.
Qed.

Lemma sample_take_profits_well_formed :
  Forall well_formed_take_profit sample_take_profits.
Proof.
  repeat constructor.
  - exists (30, PNum 45.1464). split; reflexivity.
  - exists (40, PNum 45.5516). split; reflexivity.
  - exists (30, PNum 45.9064). split; reflexivity.
Qed.

Lemma stop_loss_rejection_does_not_block_witness :
  exists tp_responses legs w',
    place_limit_order (sample_session reject_stop) (PStr "HYPE/USDT") (PStr "long")
      7.898 (PNum 44.64) (PNum 44.1336) (PList sample_take_profits) world0
      = (Val (bracket_result accept_response reject_response tp_responses), w') /\
    py_getitem (bracket_result accept_response reject_response tp_responses) "success"
      = Val (PBool true) /\
    Forall2 leg_of sample_take_profits legs /\
    calls w' = calls world0
                 ++ [PlaceOrder (entry_order (replace_slash "HYPE/USDT") "long" 7.898
                                             (PNum 44.64));
                     PlaceOrder (stop_order (replace_slash "HYPE/USDT") "long" 7.898
                                            (PNum 44.1336))]
                 ++ map (leg_order (replace_slash "HYPE/USDT") (opposite_side "long") 7.898)
                        legs.
Proof.
  apply (stop_loss_rejection_does_not_block (sample_session reject_stop)
           "HYPE/USDT" "long" 7.898 (PNum 44.64) (PNum 44.1336) sample_take_profits
           world0 accept_response (PNum 0) reject_response (PNum 10001)
           reject_stop_contract sample_take_profits_well_formed).
  - reflexivity.
  - reflexivity.
  - reflexivity.
  - reflexivity.
  - reflexivity.
  - reflexivity.
Defined.

(** In every run, whatever the session answers, the take-profit orders
    submitted are, in order, those of a prefix of the take-profit list (of
    the whole list when the bracket result is returned), each with quantity
    [qty * (size_pct / 100)]. *)
Lemma take_profit_calls_prefix :
  forall session sym sd qty price stop_loss take_profits tps w r w',
    py_iter take_profits = Val tps ->
    place_limit_order session (PStr sym) (PStr sd) qty price stop_loss take_profits w
      = (r, w') ->
    exists legs,
      Forall2 leg_of (firstn (length legs) tps) legs /\
      take_profit_calls w w'
        = map (fun l => PlaceOrder (take_profit_order (replace_slash sym) (opposite_side sd)
                                      (qty * (fst l / 100)) (snd l))) legs /\
      Qsum (map (fun l => qty * (fst l / 100)) legs) == qty * Qsum (map fst legs) / 100 /\
      (forall o s t, r = Val (bracket_result o s t) -> length legs = length tps).
Proof.
  intros session sym sd qty price stop_loss take_profits tps w r w' Hit Hrun.
  destruct (place_limit_order_shape session sym sd qty price stop_loss take_profits w)
    as [r0 [w0 [Hrun0 Hshape]]].
  rewrite Hrun in Hrun0. injection Hrun0 as -> ->.
  unfold take_profit_calls, calls_since.
  destruct Hshape as [[Hc Hnb] | [[Hc Hnb] | [tps' [legs [Hit' [Hc [Hf Hall]]]]]]].
  - exists []. rewrite Hc, skipn_length_app.
    split; [constructor|]. split; [reflexivity|].
    split; [apply (Qsum_leg_qty qty [])|].
    intros o s t H. injection H as H. exfalso. exact (Hnb _ _ _ H).
  - exists []. rewrite Hc, skipn_length_app.
    split; [constructor|]. split; [reflexivity|].
    split; [apply (Qsum_leg_qty qty [])|].
    intros o s t H. injection H as H. exfalso. exact (Hnb _ _ _ H).
  - rewrite Hit in Hit'. injection Hit' as <-.
    exists legs. rewrite Hc, skipn_length_app.
    split; [exact Hf|]. split; [reflexivity|].
    split; [apply (Qsum_leg_qty qty legs)|].
    intros o s t H. injection H as H. exact (Hall _ _ _ H).
Qed.

(** Under the gateway contract, with well-formed take-profits and an
    accepted entry, the placement runs to its end: the bracket result is
    returned and the calls are the entry, the stop-loss and one order per
    take-profit, in order, whether the stop-loss is accepted or not. *)
Lemma place_limit_order_all_legs
    session sym sd qty price stop_loss tps w order_response rc :
  gateway_contract session ->
  Forall well_formed_take_profit tps ->
  session (calls w) (PlaceOrder (entry_order (replace_slash sym) sd qty price))
    = Returns order_response ->
  py_getitem order_response "retCode" = Val rc ->
  py_ne0 rc = false ->
  exists legs sl_response tp_responses w',
    place_limit_order session (PStr sym) (PStr sd) qty price stop_loss (PList tps) w
      = (Val (bracket_result order_response sl_response tp_responses), w') /\
    Forall2 leg_of tps legs /\
    calls w' = calls w
                 ++ [PlaceOrder (entry_order (replace_slash sym) sd qty price);
                     PlaceOrder (stop_order (replace_slash sym) sd qty stop_loss)]
                 ++ map (leg_order (replace_slash sym) (opposite_side sd) qty) legs.
Proof.
  intros Hg Htps Hs Hrc Hacc.
  set (entry := PlaceOrder (entry_order (replace_slash sym) sd qty price)) in *.
  set (stop := PlaceOrder (stop_order (replace_slash sym) sd qty stop_loss)).
  destruct (Hg (calls w) (entry_order (replace_slash sym) sd qty price))
    as [r0 [rc0 [Hs0 [Hrc0 Hid]]]].
  fold entry in Hs0. rewrite Hs in Hs0. injection Hs0 as <-.
  rewrite Hrc in Hrc0. injection Hrc0 as <-.
  destruct (Hid Hacc) as [oid Hoid].
  destruct (Hg (calls w ++ [entry]) (stop_order (replace_slash sym) sd qty stop_loss))
    as [sl_response [sl_rc [Hss [Hsrc Hsid]]]].
  fold stop in Hss.
  destruct (place_take_profits_completes session (replace_slash sym) (opposite_side sd) qty
              Hg tps Htps []
              (mkWorld ((calls w ++ [entry]) ++ [stop]) (divisions w)))
    as [tp_responses Hdone].
  destruct (place_take_profits_shape session (replace_slash sym) (opposite_side sd) qty
              tps [] (mkWorld ((calls w ++ [entry]) ++ [stop]) (divisions w)))
    as [legs [Hc [Hf Hr]]].
  specialize (Hr tp_responses Hdone).
  rewrite Hr, firstn_all in Hf.
  exists legs, sl_response.
  unfold place_limit_order, place_limit_order_body. run.
  cbv beta iota delta [as_str py_iter]. run. fold entry.
  rewrite Hs. run. rewrite Hrc. run. rewrite Hacc, Hoid. run. fold stop.
  rewrite Hss. run. rewrite Hsrc. run.
  unfold py_eq0.
  destruct (py_ne0 sl_rc) eqn:Hsne; run;
    [|destruct (Hsid eq_refl) as [sl_oid Hsoid]; rewrite Hsoid; run];
    (destruct (place_take_profits session (replace_slash sym) (opposite_side sd) qty tps []
                 (mkWorld ((calls w ++ [entry]) ++ [stop]) (divisions w)))
       as [r2 w2];
     cbn [fst snd] in Hdone, Hc; subst r2;
     exists tp_responses, w2;
     split; [reflexivity|]; split; [exact Hf|];
     rewrite Hc; cbn [calls]; repeat rewrite <- app_assoc; reflexivity).
Qed.

(** C6: for every entry quantity and every list of take-profits (each with
    a numeric [size_pct] and a [price]), once the entry is accepted by a
    gateway that answers as its contract says, [place_limit_order] submits
    one take-profit order per entry of the list, in order; the quantity of
    each is [qty * (size_pct / 100)] for that entry, and under exact
    arithmetic the quantities sum to [qty * (sum of size_pct) / 100]. *)
Theorem take_profit_quantities :
  forall session sym sd qty price stop_loss tps w order_response rc,
    gateway_contract session ->
    Forall well_formed_take_profit tps ->
    session (calls w) (PlaceOrder (entry_order (replace_slash sym) sd qty price))
      = Returns order_response ->
    py_getitem order_response "retCode" = Val rc ->
    py_ne0 rc = false ->
    exists legs sl_response tp_responses w',
      place_limit_order session (PStr sym) (PStr sd) qty price stop_loss (PList tps) w
        = (Val (bracket_result order_response sl_response tp_responses), w') /\
      Forall2 leg_of tps legs /\
      take_profit_calls w w'
        = map (fun l => PlaceOrder (take_profit_order (replace_slash sym) (opposite_side sd)
                                      (qty * (fst l / 100)) (snd l))) legs /\
      Qsum (map (fun l => qty * (fst l / 100)) legs) == qty * Qsum (map fst legs) / 100.
Proof.
  intros session sym sd qty price stop_loss tps w order_response rc Hg Htps Hs Hrc Hacc.
  destruct (place_limit_order_all_legs session sym sd qty price stop_loss tps w
              order_response rc Hg Htps Hs Hrc Hacc)
    as [legs [sl_response [tp_responses [w' [Hrun [Hf Hc]]]]]].
  exists legs, sl_response, tp_responses, w'.
  split; [exact Hrun|]. split; [exact Hf|].
  split; [|apply (Qsum_leg_qty qty legs)].
  unfold take_profit_calls, calls_since. rewrite Hc, skipn_length_app. reflexivity.
Qed.

Lemma accept_all_contract : gateway_contract (sample_session accept_all).
Proof.
  intros h o. exists accept_response, (PNum 0).
  split; [reflexivity | split; [reflexivity|]].
  intros _. exists (PStr "1"). reflexivity.
Qed.

Lemma take_profit_quantities_witness :
  exists legs sl_response tp_responses w',
    place_limit_order (sample_session accept_all) (PStr "HYPE/USDT") (PStr "long")
      7.898 (PNum 44.64) (PNum 44.1336) (PList sample_take_profits) world0
      = (Val (bracket_result accept_response sl_response tp_responses), w') /\
    Forall2 leg_of sample_take_profits legs /\
    take_profit_calls world0 w'
      = map (fun l => PlaceOrder (take_profit_order (replace_slash "HYPE/USDT")
                                    (opposite_side "long") (7.898 * (fst l / 100)) (snd l)))
            legs /\
    Qsum (map (fun l => 7.898 * (fst l / 100)) legs) == 7.898 * Qsum (map fst legs) / 100.
Proof.
  apply (take_profit_quantities (sample_session accept_all) "HYPE/USDT" "long"
           7.898 (PNum 44.64) (PNum 44.1336) sample_take_profits world0
           accept_response (PNum 0) accept_all_contract sample_take_profits_well_formed).
  - reflexivity.
  - reflexivity.
  - reflexivity.
Defined.





(** ** Running a trade *)

Ltac split_run :=
  repeat (match goal with
          | |- context [match ?x with _ => _ end] =>
              lazymatch x with
              | context [match _ with _ => _ end] => fail
              | _ => destruct x eqn:?
              end
          end; run).

Lemma quiet_refl w : quiet w w.
Proof. exists []. rewrite app_nil_r. split; [reflexivity | constructor]. Qed.

Lemma quiet_trans w1 w2 w3 : quiet w1 w2 -> quiet w2 w3 -> quiet w1 w3.
Proof.
  intros [p1 [H1 F1]] [p2 [H2 F2]]. exists (p1 ++ p2).
  rewrite H2, H1, app_assoc. split; [reflexivity|].
  apply Forall_app. split; assumption.
Qed.

Lemma quiet_step w c d :
  order_side c = None -> quiet w (mkWorld (calls w ++ [c]) d).
Proof.
  intro H. exists [c]. split; [reflexivity|]. constructor; [exact H | constructor].
Qed.

Section TradeRuns.

Variable session : list call -> call -> reply.
Variable float_of_str : string -> option Q.
Variable py_str : pyval -> string.

Lemma get_symbol_info_quiet symbol w :
  exists v w', get_symbol_info session symbol w = (Val v, w') /\ quiet w w'.
Proof.
  unfold get_symbol_info. run. destruct symbol; run;
    try (eexists; eexists; split; [reflexivity | apply quiet_refl]).
  split_run;
    (eexists; eexists; split; [reflexivity | apply quiet_step; reflexivity]).
Qed.

Lemma calculate_position_size_quiet risk_pct stop_loss entry_price si w :
  exists q w',
    calculate_position_size session float_of_str risk_pct stop_loss entry_price si w
      = (Val q, w') /\ quiet w w'.
Proof.
  unfold calculate_position_size, calculate_position_size_body, get_account_info. run.
  split_run;
    (eexists; eexists; split; [reflexivity | apply quiet_step; reflexivity]).
Qed.

Lemma place_limit_order_total symbol side qty price sl tps w :
  exists result w',
    place_limit_order session symbol side qty price sl tps w = (Val result, w').
Proof.
  unfold place_limit_order, catch.
  destruct (place_limit_order_body session symbol side qty price sl tps w) as [[r|e] w'];
    eexists; eexists; reflexivity.
Qed.

Ltac early :=
  left; eexists; eexists; split; [reflexivity|];
  split; [first [assumption | apply quiet_refl]
         |intros v Hv; first [discriminate Hv | injection Hv as <-; eexists; reflexivity]].

(** A run of the body of [execute_trade] either ends before any order is
    placed, with an exception or a failure result, or reaches
    [place_limit_order] and ends with the lookup of ['success'] in its
    result. *)
Lemma execute_trade_body_cases td w :
  (exists r w',
      execute_trade_body session float_of_str py_str td w = (r, w') /\
      quiet w w' /\
      forall v, r = Val v -> exists msg, v = failure msg) \/
  (exists symbol side q ep sl tps w1 result w',
      quiet w w1 /\
      place_limit_order session symbol side q ep sl tps w1 = (Val result, w') /\
      execute_trade_body session float_of_str py_str td w
        = (rbind (py_getitem result "success") (fun _ => Val result), w')).
Proof.
  unfold execute_trade_body. run.
  destruct (py_getitem td "symbol") as [symbol|e] eqn:Hsym; run; [|early].
  destruct (py_getitem td "side") as [side|e] eqn:Hside; run; [|early].
  destruct (first_missing required_fields td) as [[f|]|e]; run; [early| |early].
  destruct (py_getitem td "limit_plan") as [lp|e]; run; [|early].
  destruct (py_getitem td "risk") as [risk|e]; run; [|early].
  destruct (get_symbol_info_quiet symbol w) as [si [w1 [Hsi Hq1]]]. rewrite Hsi. run.
  destruct (truthy si); run; [|early].
  destruct (py_getitem lp "orders") as [orders|e]; run; [|early].
  destruct (py_getitem0 orders) as [order0|e]; run; [|early].
  destruct (py_getitem order0 "price") as [ep|e]; run; [|early].
  destruct (py_getitem lp "stop_loss") as [sl|e]; run; [|early].
  destruct (py_get risk "risk_per_trade_pct" (PNum 0.4)) as [risk_pct|e]; run; [|early].
  destruct (calculate_position_size_quiet risk_pct sl ep si w1) as [q [w2 [Hq Hq2]]].
  rewrite Hq. run.
  pose proof (quiet_trans _ _ _ Hq1 Hq2) as Hq12.
  destruct (Qeq_bool q 0); run; [early|].
  destruct (py_getitem lp "take_profits") as [tps|e]; run; [|early].
  destruct (py_getitem lp "cancel_if") as [cancel_if|e]; run; [|early].
  destruct (py_getitem cancel_if "timeout_min") as [timeout_min|e]; run; [|early].
  destruct (place_limit_order_total symbol side q ep sl tps w2) as [result [w3 Hp]].
  rewrite Hp. run.
  right. exists symbol, side, q, ep, sl, tps, w2, result, w3.
  split; [exact Hq12|]. split; [exact Hp|].
  destruct (py_getitem result "success") as [success|e] eqn:Hs; run; [|reflexivity].
  destruct (truthy success); run; [reflexivity|].
  destruct result as [| | | | |d]; try discriminate Hs.
  unfold py_get. destruct (dict_get d "error"); reflexivity.
Qed.

(** [execute_trade] always returns a mapping with a ['success'] key. *)
Lemma execute_trade_total td w :
  exists d w',
    execute_trade session float_of_str py_str td w = (Val (PDict d), w') /\
    dict_get d "success" <> None.
Proof.
  unfold execute_trade, catch.
  destruct (execute_trade_body_cases td w)
    as [(r & w' & Hrun & _ & Hf)
       |(sym & sd & q & ep & sl & tps & w1 & result & w' & _ & _ & Hrun)];
    rewrite Hrun.
  - destruct r as [v|e].
    + destruct (Hf v eq_refl) as [msg ->].
      eexists. eexists. split; [reflexivity | discriminate].
    + eexists. eexists. split; [reflexivity | discriminate].
  - destruct (py_getitem result "success") as [success|e] eqn:Hs; cbn [rbind].
    + destruct result as [| | | | |d]; try discriminate Hs.
      exists d, w'. split; [reflexivity|].
      unfold py_getitem in Hs. destruct (dict_get d "success"); [discriminate | discriminate Hs].
    + eexists. eexists. split; [reflexivity | discriminate].
Qed.

End TradeRuns.

(** ** Validation *)

Lemma first_missing_none fields td :
  first_missing fields td = Val None ->
  forall f, In f fields -> py_in f td = Val true.
Proof.
  induction fields as [|g fields IH]; intros H f Hin; [destruct Hin|].
  cbn [first_missing] in H. unfold rbind in H.
  destruct (py_in g td) as [[|]|e] eqn:Hg; try discriminate H.
  destruct Hin as [<- | Hin]; [exact Hg | exact (IH H f Hin)].
Qed.

Lemma truthy_list v :
  truthy v = true -> is_list v = true -> exists x xs, v = PList (x :: xs).
Proof.
  destruct v as [| | | |l|]; try discriminate.
  destruct l as [|x xs]; [discriminate|]. intros _ _. exists x, xs. reflexivity.
Qed.

(** A payload accepted by the webhook validator carries a trade that passes
    the required-field check. *)
Lemma validate_webhook_data_sound data :
  validate_webhook_data data = true ->
  exists trade, py_getitem data "trade" = Val trade /\ required_fields_ok trade.
Proof.
  unfold validate_webhook_data, validate_webhook_data_body, rbind. intro H.
  destruct (py_in "intent" data) as [has_intent|e]; [|discriminate H].
  destruct (if has_intent
            then match py_getitem data "intent" with
                 | Val a => Val (negb (is_str "trade_decision" a))
                 | Exc e => Exc e
                 end
            else Val true) as [[|]|e]; try discriminate H.
  destruct (py_in "trade" data) as [[|]|e]; try discriminate H. cbn [negb] in H.
  destruct (py_getitem data "trade") as [trade|e]; [|discriminate H].
  exists trade. split; [reflexivity|].
  destruct (first_missing required_trade_fields trade) as [[f|]|e] eqn:Hm;
    try discriminate H.
  pose proof (first_missing_none _ _ Hm) as Hall.
  destruct (py_getitem trade "limit_plan") as [lp|e] eqn:Hlp; [|discriminate H].
  split.
  { intros f Hin. apply Hall. right. exact Hin. }
  exists lp. split; [exact Hlp|].
  destruct (py_in "orders" lp) as [[|]|e]; try discriminate H.
  destruct (py_in "stop_loss" lp) as [[|]|e] eqn:Hsl; try discriminate H.
  cbn [andb] in H.
  destruct (py_in "take_profits" lp) as [[|]|e]; try discriminate H.
  cbn [andb negb] in H.
  destruct (py_getitem lp "orders") as [orders|e] eqn:Ho; [|discriminate H].
  destruct (truthy orders) eqn:Hto; [|discriminate H]. cbn [negb] in H.
  destruct (is_list orders) eqn:Hlo; [|discriminate H]. cbn [negb] in H.
  destruct (py_getitem lp "take_profits") as [tps|e] eqn:Htp; [|discriminate H].
  destruct (truthy tps) eqn:Htt; [|discriminate H]. cbn [negb] in H.
  destruct (is_list tps) eqn:Hlt; [|discriminate H].
  destruct (truthy_list _ Hto Hlo) as [x [xs ->]].
  destruct (truthy_list _ Htt Hlt) as [y [ys ->]].
  split; [exists x, xs; exact Ho|]. split; [reflexivity|].
  exists y, ys. exact Htp.
Qed.

Lemma no_success_key resp rc :
  py_getitem resp "retCode" = Val rc ->
  py_in "success" resp = Val false ->
  py_getitem resp "success" = Exc (KeyError "success").
Proof.
  destruct resp as [| | | | |d]; try discriminate.
  intros _. unfold py_in, py_getitem.
  destruct (dict_get d "success"); [discriminate | reflexivity].
Qed.

(** ** Validation and error propagation: claims *)

(** The message of [execute_trade] for a mapping that lacks a required
    field: the first field absent, in the order symbol, side, limit_plan,
    risk, names it. For symbol and side the message is the text of the key
    error raised by the log line that precedes the check. *)
Lemma execute_trade_names_missing_field session float_of_str py_str d w :
  (dict_get d "symbol" = None ->
     execute_trade session float_of_str py_str (PDict d) w
       = (Val (failure "'symbol'"), w)) /\
  (dict_get d "symbol" <> None -> dict_get d "side" = None ->
     execute_trade session float_of_str py_str (PDict d) w
       = (Val (failure "'side'"), w)) /\
  (dict_get d "symbol" <> None -> dict_get d "side" <> None ->
   dict_get d "limit_plan" = None ->
     execute_trade session float_of_str py_str (PDict d) w
       = (Val (failure "Missing required field: limit_plan"), w)) /\
  (dict_get d "symbol" <> None -> dict_get d "side" <> None ->
   dict_get d "limit_plan" <> None -> dict_get d "risk" = None ->
     execute_trade session float_of_str py_str (PDict d) w
       = (Val (failure "Missing required field: risk"), w)).
Proof.
  unfold execute_trade, execute_trade_body, required_fields. run.
  cbn [py_getitem first_missing py_in rbind].
  destruct (dict_get d "symbol") as [symbol|]; run.
  2:{ split; [reflexivity|].
      split; [intro H; exfalso; apply H; reflexivity|].
      split; intro H; exfalso; apply H; reflexivity. }
  split; [discriminate|].
  destruct (dict_get d "side") as [side|]; run.
  2:{ split; [reflexivity|].
      split; intros _ H; exfalso; apply H; reflexivity. }
  split; [discriminate|]. cbn [is_some rbind]. run.
  destruct (dict_get d "limit_plan") as [lp|]; cbn [is_some rbind]; run.
  2:{ split; [reflexivity|]. intros _ _ H. exfalso. apply H. reflexivity. }
  split; [discriminate|].
  destruct (dict_get d "risk") as [risk|]; cbn [is_some rbind]; run.
  - discriminate.
  - reflexivity.
Qed.

(** C8, as amended: for a webhook payload carrying [trade],
    - if symbol, side, limit_plan or risk is absent from [trade],
      [execute_trade] fails with a structured error and makes no exchange
      call; when [trade] is a mapping the error message names the first
      absent field: the key ['symbol'] or ['side'], or
      [Missing required field: limit_plan] or [Missing required field: risk];
    - if [trade] violates the required-field check in any way, including a
      limit_plan without a non-empty [orders], a [stop_loss] or a non-empty
      [take_profits], [do_POST] answers 400 and nothing is executed: no
      balance query, no instrument query, no order. *)
Theorem required_fields_checked_before_exchange :
  forall session float_of_str py_str trader_initialized data trade w,
    py_getitem data "trade" = Val trade ->
    (forall f, In f required_fields -> py_in f trade <> Val true ->
       exists msg,
         execute_trade session float_of_str py_str trade w = (Val (failure msg), w)) /\
    (forall d, trade = PDict d ->
       (dict_get d "symbol" = None ->
          execute_trade session float_of_str py_str trade w
            = (Val (failure "'symbol'"), w)) /\
       (dict_get d "symbol" <> None -> dict_get d "side" = None ->
          execute_trade session float_of_str py_str trade w
            = (Val (failure "'side'"), w)) /\
       (dict_get d "symbol" <> None -> dict_get d "side" <> None ->
        dict_get d "limit_plan" = None ->
          execute_trade session float_of_str py_str trade w
            = (Val (failure "Missing required field: limit_plan"), w)) /\
       (dict_get d "symbol" <> None -> dict_get d "side" <> None ->
        dict_get d "limit_plan" <> None -> dict_get d "risk" = None ->
          execute_trade session float_of_str py_str trade w
            = (Val (failure "Missing required field: risk"), w))) /\
    (~ required_fields_ok trade ->
       do_POST session float_of_str py_str trader_initialized (Parsed data) w
         = (Val 400%nat, w)).
Proof.
  intros session fos pstr trader data trade w Htrade. split; [|split].
  - intros f Hin Hf.
    unfold execute_trade, execute_trade_body. run.
    destruct (py_getitem trade "symbol") as [symbol|e]; run;
      [|eexists; reflexivity].
    destruct (py_getitem trade "side") as [side|e]; run;
      [|eexists; reflexivity].
    destruct (first_missing required_fields trade) as [[g|]|e] eqn:Hm; run;
      [eexists; reflexivity | | eexists; reflexivity].
    exfalso. apply Hf. exact (first_missing_none _ _ Hm f Hin).
  - intros d ->. apply execute_trade_names_missing_field.
  - intros Hbad. unfold do_POST.
    destruct (validate_webhook_data data) eqn:Hv; [|reflexivity].
    exfalso. apply Hbad.
    destruct (validate_webhook_data_sound data Hv) as [trade' [Htrade' Hok]].
    rewrite Htrade in Htrade'. injection Htrade' as <-. exact Hok.
Qed.

Lemma required_fields_checked_before_exchange_witness :
  execute_trade (sample_session accept_all) no_float no_str
    (PDict [("symbol", PStr "HYPE/USDT"); ("side", PStr "long");
            ("limit_plan", sample_limit_plan sample_take_profits)]) world0
  = (Val (failure "Missing required field: risk"), world0) /\
  do_POST (sample_session accept_all) no_float no_str true
    (Parsed (PDict [("intent", PStr "trade_decision");
                    ("trade", PDict [("symbol", PStr "HYPE/USDT"); ("side", PStr "long");
                                     ("limit_plan", sample_limit_plan sample_take_profits)])]))
    world0
  = (Val 400%nat, world0).
Proof.
  destruct (required_fields_checked_before_exchange (sample_session accept_all)
              no_float no_str true
              (PDict [("intent", PStr "trade_decision");
                      ("trade", PDict [("symbol", PStr "HYPE/USDT"); ("side", PStr "long");
                                       ("limit_plan", sample_limit_plan sample_take_profits)])])
              (PDict [("symbol", PStr "HYPE/USDT"); ("side", PStr "long");
                      ("limit_plan", sample_limit_plan sample_take_profits)])
              world0 eq_refl) as [_ [Hnames Hpost]].
  split.
  - destruct (Hnames _ eq_refl) as [_ [_ [_ Hrisk]]].
    apply Hrisk; try discriminate. reflexivity.
  - apply Hpost. intros [Hall _].
    assert (H : py_in "risk"
                  (PDict [("symbol", PStr "HYPE/USDT"); ("side", PStr "long");
                          ("limit_plan", sample_limit_plan sample_take_profits)])
                = Val true) by (apply Hall; simpl; tauto).
    discriminate H.
Defined.

(** C8 as stated fails on [execute_trade]: with the four top-level fields
    present and a limit_plan that lacks [orders], the instrument query is made
    before the failure; with an empty [take_profits] the balance is queried
    and the entry and the stop-loss are placed. *)
Lemma execute_trade_queries_before_plan_check :
  ~ required_fields_ok (trade_with (PDict [])) /\
  execute_trade (sample_session accept_all) no_float no_str (trade_with (PDict [])) world0
    = (Val (failure "'orders'"),
       mkWorld [GetInstrumentsInfo "linear" "HYPEUSDT"] []) /\
  ~ required_fields_ok (trade_with (sample_limit_plan [])) /\
  map order_side
      (calls (snd (execute_trade (sample_session accept_all) no_float no_str
                     (trade_with (sample_limit_plan [])) world0)))
    = [None; None; Some "Buy"%string; Some "Sell"%string].
Proof.
  split; [|split; [|split]].
  - intros [_ [lp [Hlp [[x [xs Ho]] _]]]].
    injection Hlp as <-. discriminate Ho.
  - reflexivity.
  - intros [_ [lp [Hlp [_ [_ [x [xs Ht]]]]]]].
    injection Hlp as <-. discriminate Ht.
  - reflexivity.
Qed.

(** C10: a rejected entry makes [place_limit_order] return the exchange's
    answer as it is; [execute_trade] returns, for every input and every
    session, a mapping with a ['success'] key; and when the exchange rejects
    orders with answers that have no ['success'] key, [execute_trade] returns
    [success = False], with the caught key error ['success'] as its message
    whenever an order was submitted. *)
Theorem rejected_entry_reported_as_failure :
  forall session float_of_str py_str,
    (forall sym sd qty price stop_loss take_profits w order_response rc,
        session (calls w) (PlaceOrder (entry_order (replace_slash sym) sd qty price))
          = Returns order_response ->
        py_getitem order_response "retCode" = Val rc ->
        py_ne0 rc = true ->
        py_in "success" order_response = Val false ->
        place_limit_order session (PStr sym) (PStr sd) qty price stop_loss take_profits w
          = (Val order_response,
             mkWorld (calls w ++ [PlaceOrder (entry_order (replace_slash sym) sd qty price)])
                     (divisions w)) /\
        py_getitem order_response "success" = Exc (KeyError "success")) /\
    (forall trade_data w,
        exists d w',
          execute_trade session float_of_str py_str trade_data w = (Val (PDict d), w') /\
          dict_get d "success" <> None) /\
    (rejects_orders session ->
     forall trade_data w,
       exists msg w',
         execute_trade session float_of_str py_str trade_data w
           = (Val (failure msg), w') /\
         (forall o, In (PlaceOrder o) (calls_since w w') -> msg = "'success'"%string)).
Proof.
  intros session fos pstr. split; [|split].
  - intros sym sd qty price stop_loss take_profits w order_response rc Hs Hrc Hne Hin.
    split.
    + apply (place_limit_order_entry_rejected session sym sd qty price stop_loss
               take_profits w order_response rc Hs Hrc Hne).
    + apply (no_success_key _ _ Hrc Hin).
  - intros trade_data w. apply execute_trade_total.
  - intros Hrej trade_data w.
    assert (Hquiet : forall w', quiet w w' ->
              forall o, In (PlaceOrder o) (calls_since w w') ->
                        False).
    { intros w' [pre [Hc Hpre]] o Hin. unfold calls_since in Hin.
      rewrite Hc, skipn_length_app in Hin.
      rewrite Forall_forall in Hpre. specialize (Hpre _ Hin). discriminate Hpre. }
    unfold execute_trade, catch.
    destruct (execute_trade_body_cases session fos pstr trade_data w)
      as [(r & w' & Hrun & Hq & Hf)
         |(symbol & side & q & ep & sl & tps & w1 & result & w' & Hq & Hp & Hrun)];
      rewrite Hrun.
    + destruct r as [v|e].
      * destruct (Hf v eq_refl) as [msg ->]. exists msg, w'.
        split; [reflexivity|]. intros o Hin. exfalso. exact (Hquiet w' Hq o Hin).
      * exists (exn_str e), w'.
        split; [reflexivity|]. intros o Hin. exfalso. exact (Hquiet w' Hq o Hin).
    + assert (Hno : forall e,
                 place_limit_order session symbol side q ep sl tps w1
                   = (Val (failure (exn_str e)), w1) ->
                 exists msg w'0,
                   (let (r, w'1) :=
                      (rbind (py_getitem result "success") (fun _ => Val result), w') in
                    match r with
                    | Val a => (Val a, w'1)
                    | Exc e0 => (Val (failure (exn_str e0)), w'1)
                    end) = (Val (failure msg), w'0) /\
                   (forall o, In (PlaceOrder o) (calls_since w w'0) ->
                              msg = "'success'"%string)).
      { intros e He. rewrite Hp in He. injection He as -> ->.
        exists (exn_str e), w1. split; [reflexivity|].
        intros o Hin. exfalso. exact (Hquiet w1 Hq o Hin). }
      destruct symbol as [| | |sym| |];
        try (apply (Hno AttributeError); reflexivity).
      destruct side as [| | |sd| |];
        try (apply (Hno AttributeError); reflexivity).
      destruct (Hrej (calls w1) (entry_order (replace_slash sym) sd q ep))
        as (resp & rc & Hs & Hrc & Hne & Hin).
      rewrite (place_limit_order_entry_rejected session sym sd q ep sl tps w1 resp rc
                 Hs Hrc Hne) in Hp.
      injection Hp as <- <-.
      rewrite (no_success_key _ _ Hrc Hin). cbn [rbind].
      eexists. eexists. split; [reflexivity|]. intros _ _. reflexivity.
Qed.

Lemma reject_all_rejects : rejects_orders (sample_session reject_all).
Proof.
  intros h o. exists reject_response, (PNum 10001).
  repeat split.
Qed.

Lemma rejected_entry_reported_as_failure_witness :
  exists msg w',
    execute_trade (sample_session reject_all) no_float no_str sample_trade world0
      = (Val (failure msg), w') /\
    (forall o, In (PlaceOrder o) (calls_since world0 w') -> msg = "'success'"%string).
Proof.
  destruct (rejected_entry_reported_as_failure (sample_session reject_all) no_float no_str)
    as [_ [_ H]].
  apply (H reject_all_rejects sample_trade world0).
Defined.

(** The sample trade against an exchange that rejects every order: one
    order is submitted, and the caught key error is the message. *)
Example rejected_sample_trade :
  let run := execute_trade (sample_session reject_all) no_float no_str sample_trade world0 in
  fst run = Val (failure "'success'") /\
  map order_side (calls (snd run)) = [None; None; Some "Buy"%string].
Proof. split; reflexivity. Qed.

(** * Further properties of the code *)

(** ** The sizer on every input *)

Section SizerAlways.

Variable session : list call -> call -> reply.
Variable float_of_str : string -> option Q.

(** X1: whatever its arguments and whatever the session answers, the sizer
    returns a number without raising, and the wallet query is the one
    exchange call it makes. *)
Theorem calculate_position_size_single_query :
  forall risk_pct stop_loss entry_price si w,
    exists q w',
      calculate_position_size session float_of_str risk_pct stop_loss entry_price si w
        = (Val q, w') /\
      calls w' = calls w ++ [GetWalletBalance "UNIFIED"].
Proof.
  intros risk_pct stop_loss entry_price si w.
  unfold calculate_position_size, calculate_position_size_body, get_account_info. run.
  split_run; (eexists; eexists; split; reflexivity).
Qed.

End SizerAlways.

(** ** Divisions that raise *)

Section SizerBounds.

Variable session : list call -> call -> reply.
Variable float_of_str : string -> option Q.

(** X5: an instrument whose [qtyStep] is zero, or an entry price of zero,
    makes a division raise; the handler turns it into the zero sentinel. *)
Theorem zero_step_or_price_gives_sentinel :
  forall w info b r s e si mn st,
    session (calls w) (GetWalletBalance "UNIFIED") = Returns info ->
    find_usdt_balance float_of_str info = Val b ->
    ~ b == 0 ->
    ~ Qabs (e - s) == 0 ->
    lot_size float_of_str si = Val (mn, st) ->
    st == 0 \/ e == 0 ->
    exists w',
      calculate_position_size session float_of_str (PNum r) (PNum s) (PNum e) si w
        = (Val 0, w') /\
      Exists (fun nd => snd nd == 0) (divisions w').
Proof.
  intros w info b r s e si mn st Hs Hb Hb0 Hd Hl Hz.
  destruct (find_usdt_balance_has_result _ _ _ Hb) as [Ht Hr].
  unfold calculate_position_size, calculate_position_size_body, get_account_info.
  run. rewrite Hs. run. rewrite Ht, Hr. run. rewrite Hb. run.
  rewrite (neq_nonzero _ Hb0).
  cbv beta iota zeta delta [py_num].
  change (Qeq_bool 100 0) with false. run.
  rewrite (neq_nonzero _ Hd), Hl. run.
  destruct (Qeq_bool st 0) eqn:Hst; run.
  - eexists. split; [reflexivity|]. cbn [divisions].
    apply Exists_app. right. constructor. apply Qeq_bool_iff. exact Hst.
  - destruct Hz as [Hz | Hz].
    { apply Qeq_bool_false_neq in Hst. contradiction. }
    assert (He : Qeq_bool e 0 = true) by (apply Qeq_bool_iff; exact Hz).
    rewrite He. run.
    eexists. split; [reflexivity|]. cbn [divisions].
    apply Exists_app. right. constructor. exact Hz.
Qed.

End SizerBounds.

Lemma zero_step_or_price_gives_sentinel_witness :
  exists w',
    calculate_position_size (wallet_session 1000) no_float
      (PNum 0.4) (PNum 44.1336) (PNum 44.64) (symbol_info_of 0.001 0) world0
      = (Val 0, w') /\
    Exists (fun nd => snd nd == 0) (divisions w').
Proof.
  apply (zero_step_or_price_gives_sentinel (wallet_session 1000) no_float world0
           (wallet_response 1000) 1000 0.4 44.1336 44.64 (symbol_info_of 0.001 0)
           0.001 0).
  - reflexivity.
  - reflexivity.
  - intro H; discriminate H.
  - intro H; discriminate H.
  - reflexivity.
  - left. reflexivity.
Defined.

(** ** The scan for the USDT balance *)

Section BalanceScan.

Variable float_of_str : string -> option Q.

Lemma scan_coins_no_usdt coins b :
  Forall non_usdt_coin coins -> scan_coins float_of_str coins b = Val b.
Proof.
  induction 1 as [|coin coins [name [Hn Hs]] _ IH]; [reflexivity|].
  cbn [scan_coins]. rewrite Hn. cbn [rbind]. rewrite Hs. exact IH.
Qed.

Lemma scan_coins_first_usdt pre coin rest b0 b :
  Forall non_usdt_coin pre ->
  py_getitem coin "coin" = Val (PStr "USDT") ->
  rbind (py_getitem coin "walletBalance") (py_float float_of_str) = Val b ->
  scan_coins float_of_str (pre ++ coin :: rest) b0 = Val b.
Proof.
  intros Hpre Hc Hb.
  induction Hpre as [|c pre [name [Hn Hs]] _ IH].
  - cbn [app scan_coins]. rewrite Hc. cbn [rbind is_str]. exact Hb.
  - cbn [app scan_coins]. rewrite Hn. cbn [rbind]. rewrite Hs. exact IH.
Qed.

Lemma scan_accounts_no_usdt accounts b :
  Forall account_without_usdt accounts ->
  scan_accounts float_of_str accounts b = Val b.
Proof.
  induction 1 as [|account accounts Ha _ IH]; [reflexivity|].
  cbn [scan_accounts].
  destruct Ha as [Hin | [cl [coins [Hin [Hcl [Hit Hcoins]]]]]];
    rewrite Hin; cbn [rbind]; [exact IH|].
  rewrite Hcl. cbn [rbind]. rewrite Hit. cbn [rbind].
  rewrite (scan_coins_no_usdt coins b Hcoins). cbn [rbind]. exact IH.
Qed.

Lemma scan_accounts_app l1 l2 b :
  scan_accounts float_of_str (l1 ++ l2) b
  = rbind (scan_accounts float_of_str l1 b) (scan_accounts float_of_str l2).
Proof.
  revert b. induction l1 as [|account l1 IH]; intro b; [reflexivity|].
  cbn [app scan_accounts].
  destruct (py_in "coin" account) as [[|]|e]; cbn [rbind]; [|apply IH|reflexivity].
  destruct (py_getitem account "coin") as [cl|e]; cbn [rbind]; [|reflexivity].
  destruct (py_iter cl) as [coins|e]; cbn [rbind]; [|reflexivity].
  destruct (scan_coins float_of_str coins b) as [b'|e]; cbn [rbind]; [|reflexivity].
  apply IH.
Qed.

(** X6: when no account of the wallet answer holds USDT, the balance found
    is 0; the sizer then returns the zero sentinel without evaluating any
    division. *)
Theorem no_usdt_gives_sentinel :
  forall session info result lst accounts risk_pct stop_loss entry_price si w,
    session (calls w) (GetWalletBalance "UNIFIED") = Returns info ->
    py_getitem info "result" = Val result ->
    py_getitem result "list" = Val lst ->
    py_iter lst = Val accounts ->
    Forall account_without_usdt accounts ->
    find_usdt_balance float_of_str info = Val 0 /\
    calculate_position_size session float_of_str risk_pct stop_loss entry_price si w
      = (Val 0, mkWorld (calls w ++ [GetWalletBalance "UNIFIED"]) (divisions w)).
Proof.
  intros session info result lst accounts risk_pct stop_loss entry_price si w
         Hs Hres Hlst Hit Hacc.
  assert (Hb : find_usdt_balance float_of_str info = Val 0).
  { unfold find_usdt_balance. rewrite Hres. cbn [rbind]. rewrite Hlst. cbn [rbind].
    rewrite Hit. cbn [rbind]. apply scan_accounts_no_usdt. exact Hacc. }
  split; [exact Hb|].
  destruct (find_usdt_balance_has_result _ _ _ Hb) as [Ht Hr].
  unfold calculate_position_size, calculate_position_size_body, get_account_info.
  run. rewrite Hs. run. rewrite Ht, Hr. run. rewrite Hb. run. reflexivity.
Qed.

(** X7: the inner loop stops at the first USDT coin of an account, and a
    later account overrides an earlier one: the balance found is the wallet
    balance of the first USDT coin of the last account that holds USDT,
    whatever follows that coin in its account. *)
Theorem last_account_first_usdt_coin_wins :
  forall info result lst accounts account b0 cl pre coin rest b,
    py_getitem info "result" = Val result ->
    py_getitem result "list" = Val lst ->
    py_iter lst = Val (accounts ++ [account]) ->
    scan_accounts float_of_str accounts 0 = Val b0 ->
    py_in "coin" account = Val true ->
    py_getitem account "coin" = Val cl ->
    py_iter cl = Val (pre ++ coin :: rest) ->
    Forall non_usdt_coin pre ->
    py_getitem coin "coin" = Val (PStr "USDT") ->
    rbind (py_getitem coin "walletBalance") (py_float float_of_str) = Val b ->
    find_usdt_balance float_of_str info = Val b.
Proof.
  intros info result lst accounts account b0 cl pre coin rest b
         Hres Hlst Hit Hacc Hin Hcl Hitc Hpre Hc Hb.
  unfold find_usdt_balance. rewrite Hres. cbn [rbind]. rewrite Hlst. cbn [rbind].
  rewrite Hit. cbn [rbind]. rewrite scan_accounts_app, Hacc. cbn [rbind scan_accounts].
  rewrite Hin. cbn [rbind]. rewrite Hcl. cbn [rbind]. rewrite Hitc. cbn [rbind].
  rewrite (scan_coins_first_usdt pre coin rest b0 b Hpre Hc Hb). reflexivity.
Qed.

End BalanceScan.

Lemma no_usdt_gives_sentinel_witness :
  find_usdt_balance no_float btc_only_wallet = Val 0 /\
  calculate_position_size (fun _ _ => Returns btc_only_wallet) no_float
    (PNum 0.4) (PNum 44.1336) (PNum 44.64) (symbol_info_of 0.001 0.001) world0
  = (Val 0, mkWorld (calls world0 ++ [GetWalletBalance "UNIFIED"]) (divisions world0)).
Proof.
  apply (no_usdt_gives_sentinel no_float (fun _ _ => Returns btc_only_wallet)
           btc_only_wallet
           (PDict [("list", PList [
              PDict [("accountType", PStr "UNIFIED")];
              PDict [("coin", PList [PDict [("coin", PStr "BTC");
                                            ("walletBalance", PNum 3)]])]])])
           (PList [
              PDict [("accountType", PStr "UNIFIED")];
              PDict [("coin", PList [PDict [("coin", PStr "BTC");
                                            ("walletBalance", PNum 3)]])]])
           [PDict [("accountType", PStr "UNIFIED")];
            PDict [("coin", PList [PDict [("coin", PStr "BTC");
                                          ("walletBalance", PNum 3)]])]]).
  - reflexivity.
  - reflexivity.
  - reflexivity.
  - reflexivity.
  - constructor; [left; reflexivity|].
    constructor; [|constructor].
    right. eexists. eexists.
    split; [reflexivity|]. split; [reflexivity|]. split; [reflexivity|].
    constructor; [|constructor]. exists (PStr "BTC"). split; reflexivity.
Defined.

Lemma last_account_first_usdt_coin_wins_witness :
  find_usdt_balance no_float two_account_wallet = Val 250.
Proof.
  apply (last_account_first_usdt_coin_wins no_float two_account_wallet
           (PDict [("list", PList [
              PDict [("coin", PList [PDict [("coin", PStr "USDT");
                                            ("walletBalance", PNum 7)]])];
              PDict [("coin", PList [PDict [("coin", PStr "BTC"); ("walletBalance", PNum 3)];
                                     PDict [("coin", PStr "USDT");
                                            ("walletBalance", PNum 250)];
                                     PDict [("coin", PStr "USDT"); ("walletBalance", PNum 9)];
                                     PNone])]])])
           (PList [
              PDict [("coin", PList [PDict [("coin", PStr "USDT");
                                            ("walletBalance", PNum 7)]])];
              PDict [("coin", PList [PDict [("coin", PStr "BTC"); ("walletBalance", PNum 3)];
                                     PDict [("coin", PStr "USDT");
                                            ("walletBalance", PNum 250)];
                                     PDict [("coin", PStr "USDT"); ("walletBalance", PNum 9)];
                                     PNone])]])
           [PDict [("coin", PList [PDict [("coin", PStr "USDT");
                                          ("walletBalance", PNum 7)]])]]
           (PDict [("coin", PList [PDict [("coin", PStr "BTC"); ("walletBalance", PNum 3)];
                                   PDict [("coin", PStr "USDT");
                                          ("walletBalance", PNum 250)];
                                   PDict [("coin", PStr "USDT"); ("walletBalance", PNum 9)];
                                   PNone])])
           7
           (PList [PDict [("coin", PStr "BTC"); ("walletBalance", PNum 3)];
                   PDict [("coin", PStr "USDT"); ("walletBalance", PNum 250)];
                   PDict [("coin", PStr "USDT"); ("walletBalance", PNum 9)];
                   PNone])
           [PDict [("coin", PStr "BTC"); ("walletBalance", PNum 3)]]
           (PDict [("coin", PStr "USDT"); ("walletBalance", PNum 250)])
           [PDict [("coin", PStr "USDT"); ("walletBalance", PNum 9)]; PNone]
           250).
  - reflexivity.
  - reflexivity.
  - reflexivity.
  - reflexivity.
  - reflexivity.
  - reflexivity.
  - reflexivity.
  - constructor; [|constructor]. exists (PStr "BTC"). split; reflexivity.
  - reflexivity.
  - reflexivity.
Defined.

(** ** The instrument query *)

(** The run of [get_symbol_info]: it never raises; for a symbol that is not
    a string nothing is called and the answer is empty; for a string the
    instrument is queried once, under the symbol without its slashes, and the
    answer is empty or the first entry of [response['result']['list']]. *)
Lemma get_symbol_info_run session symbol w :
  exists v w',
    get_symbol_info session symbol w = (Val v, w') /\
    match symbol with
    | PStr s =>
        calls w' = calls w ++ [GetInstrumentsInfo "linear" (replace_slash s)] /\
        (v = PDict [] \/
         exists response result lst,
           session (calls w) (GetInstrumentsInfo "linear" (replace_slash s))
             = Returns response /\
           py_getitem response "result" = Val result /\
           py_getitem result "list" = Val lst /\
           truthy lst = true /\
           py_getitem0 lst = Val v)
    | _ => w' = w /\ v = PDict []
    end.
Proof.
  unfold get_symbol_info. run.
  destruct symbol as [| | |s| |]; run;
    try (eexists; eexists; split; [reflexivity | split; reflexivity]).
  destruct (session (calls w) (GetInstrumentsInfo "linear" (replace_slash s)))
    as [response|msg] eqn:Hs; run;
    [|eexists; eexists; split; [reflexivity | split; [reflexivity | left; reflexivity]]].
  destruct (py_getitem response "result") as [result|e] eqn:Hres; run;
    [|eexists; eexists; split; [reflexivity | split; [reflexivity | left; reflexivity]]].
  destruct (py_getitem result "list") as [lst|e] eqn:Hlst; run;
    [|eexists; eexists; split; [reflexivity | split; [reflexivity | left; reflexivity]]].
  destruct (truthy lst) eqn:Ht; run;
    [|eexists; eexists; split; [reflexivity | split; [reflexivity | left; reflexivity]]].
  destruct (py_getitem0 lst) as [v|e] eqn:H0; run;
    [|eexists; eexists; split; [reflexivity | split; [reflexivity | left; reflexivity]]].
  eexists. eexists. split; [reflexivity|]. split; [reflexivity|].
  right. exists response, result, lst. repeat split; assumption.
Qed.

(** X8: [get_symbol_info] never raises. It queries the instrument at most
    once, with every ['/'] removed from the symbol, and returns either the
    empty mapping or the first entry of the instrument list the exchange
    answered. *)
Theorem get_symbol_info_first_or_empty :
  forall session symbol w,
    exists v w',
      get_symbol_info session symbol w = (Val v, w') /\
      match symbol with
      | PStr s =>
          calls w' = calls w ++ [GetInstrumentsInfo "linear" (replace_slash s)] /\
          no_slash (replace_slash s) /\
          (v = PDict [] \/
           exists response result lst,
             session (calls w) (GetInstrumentsInfo "linear" (replace_slash s))
               = Returns response /\
             py_getitem response "result" = Val result /\
             py_getitem result "list" = Val lst /\
             truthy lst = true /\
             py_getitem0 lst = Val v)
      | _ => w' = w /\ v = PDict []
      end.
Proof.
  intros session symbol w.
  destruct (get_symbol_info_run session symbol w) as [v [w' [Hrun Hsym]]].
  exists v, w'. split; [exact Hrun|].
  destruct symbol; try exact Hsym.
  destruct Hsym as [Hc Hv]. split; [exact Hc|]. split; [|exact Hv].
  clear. unfold no_slash. induction s as [|c s IH]; [intros []|].
  cbn [replace_slash]. destruct (Ascii.eqb c "/") eqn:E; [exact IH|].
  cbn [list_ascii_of_string]. intros [H | H]; [|exact (IH H)].
  apply Ascii.eqb_neq in E. exact (E H).
Qed.

(** ** More on the bracket placer *)

Lemma replace_slash_no_slash s : no_slash (replace_slash s).
Proof.
  unfold no_slash. induction s as [|c s IH]; [intros []|].
  cbn [replace_slash]. destruct (Ascii.eqb c "/") eqn:E; [exact IH|].
  cbn [list_ascii_of_string]. intros [H | H]; [|exact (IH H)].
  apply Ascii.eqb_neq in E. exact (E H).
Qed.

(** Without a string for the symbol and for the side nothing is submitted. *)
Lemma place_limit_order_not_strings session symbol side qty price sl tps w :
  (forall sym sd, symbol = PStr sym -> side = PStr sd -> False) ->
  place_limit_order session symbol side qty price sl tps w
    = (Val (failure (exn_str AttributeError)), w).
Proof.
  intro H. unfold place_limit_order, place_limit_order_body. run.
  destruct symbol as [| | |sym| |]; try reflexivity.
  destruct side as [| | |sd| |]; try reflexivity.
  exfalso. exact (H sym sd eq_refl eq_refl).
Qed.

(** Every call of a bracket placement is an order for the instrument named
    by the symbol without its slashes, in category linear, good till
    cancelled. *)
Lemma place_limit_order_orders_only session symbol side qty price sl tps w :
  exists result w' os,
    place_limit_order session symbol side qty price sl tps w = (Val result, w') /\
    calls w' = calls w ++ map PlaceOrder os /\
    Forall (fun o => Order.category o = "linear"%string /\
                     Order.timeInForce o = "GTC"%string /\
                     no_slash (Order.symbol o) /\
                     exists sym, symbol = PStr sym /\ Order.symbol o = replace_slash sym)
           os.
Proof.
  destruct symbol as [| | |sym| |];
    try (eexists; eexists; exists [];
         split; [apply place_limit_order_not_strings; intros ? ? H; discriminate H|];
         split; [cbn; rewrite app_nil_r; reflexivity | constructor]).
  destruct side as [| | |sd| |];
    try (eexists; eexists; exists [];
         split; [apply place_limit_order_not_strings; intros ? ? _ H; discriminate H|];
         split; [cbn; rewrite app_nil_r; reflexivity | constructor]).
  assert (Hok : forall o, Order.category o = "linear"%string ->
                          Order.timeInForce o = "GTC"%string ->
                          Order.symbol o = replace_slash sym ->
                          Order.category o = "linear"%string /\
                          Order.timeInForce o = "GTC"%string /\
                          no_slash (Order.symbol o) /\
                          exists sym', PStr sym = PStr sym' /\
                                       Order.symbol o = replace_slash sym').
  { intros o Hc Ht Hsym. split; [exact Hc|]. split; [exact Ht|].
    split; [rewrite Hsym; apply replace_slash_no_slash|].
    exists sym. split; [reflexivity | exact Hsym]. }
  destruct (place_limit_order_shape session sym sd qty price sl tps w)
    as [r [w' [Hrun Hshape]]].
  exists r, w'.
  destruct Hshape as [[Hc _] | [[Hc _] | [tps' [legs [_ [Hc _]]]]]].
  - exists [entry_order (replace_slash sym) sd qty price].
    split; [exact Hrun|]. split; [exact Hc|].
    constructor; [apply Hok; reflexivity | constructor].
  - exists [entry_order (replace_slash sym) sd qty price;
            stop_order (replace_slash sym) sd qty sl].
    split; [exact Hrun|]. split; [exact Hc|].
    constructor; [apply Hok; reflexivity|].
    constructor; [apply Hok; reflexivity | constructor].
  - exists (entry_order (replace_slash sym) sd qty price
              :: stop_order (replace_slash sym) sd qty sl
              :: map (fun l => take_profit_order (replace_slash sym) (opposite_side sd)
                                 (leg_qty qty l) (snd l)) legs).
    split; [exact Hrun|].
    split; [rewrite Hc; cbn [map app]; rewrite map_map; reflexivity|].
    constructor; [apply Hok; reflexivity|].
    constructor; [apply Hok; reflexivity|].
    apply Forall_forall. intros o Hin. apply in_map_iff in Hin.
    destruct Hin as [l [<- _]]. apply Hok; reflexivity.
Qed.

(** X9: whatever the arguments and the answers of the exchange,
    [place_limit_order] returns without raising and calls nothing but
    [place_order]; every order it submits is in category linear, good till
    cancelled, and names the symbol with its slashes removed. *)
Theorem bracket_orders_uniform :
  forall session symbol side qty price sl tps w,
    exists result w' os,
      place_limit_order session symbol side qty price sl tps w = (Val result, w') /\
      calls w' = calls w ++ map PlaceOrder os /\
      Forall (fun o => Order.category o = "linear"%string /\
                       Order.timeInForce o = "GTC"%string /\
                       no_slash (Order.symbol o) /\
                       exists sym, symbol = PStr sym /\ Order.symbol o = replace_slash sym)
             os.
Proof.
  intros. apply place_limit_order_orders_only.
Qed.

(** The side of the entry and the side of the legs that follow it, for any
    side string. *)
Lemma bracket_sides session sym sd qty price sl tps w r w' :
  place_limit_order session (PStr sym) (PStr sd) qty price sl tps w = (r, w') ->
  exists dependent,
    calls_since w w'
      = PlaceOrder (entry_order (replace_slash sym) sd qty price) :: map PlaceOrder dependent /\
    Forall (fun o => Order.side o = opposite_side sd) dependent.
Proof.
  intro Hrun.
  destruct (place_limit_order_shape session sym sd qty price sl tps w)
    as [r0 [w0 [Hrun0 Hshape]]].
  rewrite Hrun in Hrun0. injection Hrun0 as -> ->.
  unfold calls_since.
  destruct Hshape as [[Hc _] | [[Hc _] | [tps' [legs [_ [Hc _]]]]]];
    rewrite Hc, skipn_length_app.
  - exists []. split; [reflexivity | constructor].
  - exists [stop_order (replace_slash sym) sd qty sl].
    split; [reflexivity | constructor; [reflexivity | constructor]].
  - exists (stop_order (replace_slash sym) sd qty sl
              :: map (fun l => take_profit_order (replace_slash sym) (opposite_side sd)
                                 (leg_qty qty l) (snd l)) legs).
    split; [cbn [map app]; rewrite map_map; reflexivity|].
    constructor; [reflexivity|].
    apply Forall_forall. intros o Hin. apply in_map_iff in Hin.
    destruct Hin as [l [<- _]]. reflexivity.
Qed.

(** X10: the side is read case-insensitively and only ["long"] buys: for
    every other side string, whatever it is, the entry is submitted as Sell
    and every order after it as Buy; for ["long"] in any casing the entry is
    Buy and every order after it Sell. Entry and dependent legs are never on
    the same side. *)
Theorem any_side_but_long_sells :
  forall session sym sd qty price sl tps w r w',
    place_limit_order session (PStr sym) (PStr sd) qty price sl tps w = (r, w') ->
    exists dependent,
      calls_since w w'
        = PlaceOrder (entry_order (replace_slash sym) sd qty price)
            :: map PlaceOrder dependent /\
      (lower sd = "long"%string ->
         Order.side (entry_order (replace_slash sym) sd qty price) = "Buy"%string /\
         Forall (fun o => Order.side o = "Sell"%string) dependent) /\
      (lower sd <> "long"%string ->
         Order.side (entry_order (replace_slash sym) sd qty price) = "Sell"%string /\
         Forall (fun o => Order.side o = "Buy"%string) dependent).
Proof.
  intros session sym sd qty price sl tps w r w' Hrun.
  destruct (bracket_sides session sym sd qty price sl tps w r w' Hrun)
    as [dependent [Hc Hdep]].
  exists dependent. split; [exact Hc|].
  cbn [entry_order Order.side]. unfold opposite_side in Hdep. unfold derivatives_side.
  split; intro Hl.
  - rewrite Hl in *. cbn in Hdep |- *. split; [reflexivity | exact Hdep].
  - apply String.eqb_neq in Hl. rewrite Hl in *. split; [reflexivity | exact Hdep].
Qed.

Lemma any_side_but_long_sells_witness :
  exists dependent,
    calls_since world0
      (snd (place_limit_order (sample_session accept_all) (PStr "HYPE/USDT") (PStr "buy")
              7.898 (PNum 44.64) (PNum 44.1336) (PList sample_take_profits) world0))
      = PlaceOrder (entry_order (replace_slash "HYPE/USDT") "buy" 7.898 (PNum 44.64))
          :: map PlaceOrder dependent /\
    (lower "buy" = "long"%string ->
       Order.side (entry_order (replace_slash "HYPE/USDT") "buy" 7.898 (PNum 44.64))
         = "Buy"%string /\
       Forall (fun o => Order.side o = "Sell"%string) dependent) /\
    (lower "buy" <> "long"%string ->
       Order.side (entry_order (replace_slash "HYPE/USDT") "buy" 7.898 (PNum 44.64))
         = "Sell"%string /\
       Forall (fun o => Order.side o = "Buy"%string) dependent).
Proof.
  eapply (any_side_but_long_sells (sample_session accept_all) "HYPE/USDT" "buy"
            7.898 (PNum 44.64) (PNum 44.1336) (PList sample_take_profits) world0).
  reflexivity.
Defined.

(** The loop over the take-profits appends to its accumulator the accepted
    answers only. *)
Lemma place_take_profits_accepted session sym tp_side qty :
  forall tps acc w r w',
    place_take_profits session sym tp_side qty tps acc w = (Val r, w') ->
    exists new,
      r = acc ++ new /\ Forall accepted new /\ (length new <= length tps)%nat.
Proof.
  induction tps as [|tp tps IH]; intros acc w r w'.
  - cbn. intro H. injection H as <- _. exists []. rewrite app_nil_r.
    split; [reflexivity | split; [constructor | apply Nat.le_refl]].
  - cbn [place_take_profits]. run.
    destruct (rbind (py_getitem tp "size_pct") py_num) as [sp|e]; run;
      [|intro H; discriminate H].
    change (Qeq_bool 100 0) with false. run.
    destruct (py_getitem tp "price") as [p|e]; run; [|intro H; discriminate H].
    destruct (session (calls w) (PlaceOrder (take_profit_order sym tp_side (qty * (sp / 100)) p)))
      as [resp|msg]; run; [|intro H; discriminate H].
    destruct (py_getitem resp "retCode") as [rc|e] eqn:Hrc; run;
      [|intro H; discriminate H].
    unfold py_eq0. destruct (py_ne0 rc) eqn:Hne; run.
    + intro H. destruct (IH _ _ _ _ H) as [new [-> [Hacc Hlen]]].
      exists new. split; [reflexivity|]. split; [exact Hacc|].
      cbn [length]. apply Nat.le_trans with (m := length tps); [exact Hlen|].
      apply Nat.le_succ_diag_r.
    + destruct (order_id resp) as [oid|e] eqn:Hid; run; [|intro H; discriminate H].
      intro H. destruct (IH _ _ _ _ H) as [new [-> [Hacc Hlen]]].
      exists (resp :: new). rewrite <- app_assoc. split; [reflexivity|].
      split.
      * constructor; [|exact Hacc]. exists rc, oid. repeat split; assumption.
      * cbn [length]. apply le_n_S. exact Hlen.
Qed.

Ltac not_bracket :=
  let H := fresh in
  intro H; exfalso;
  match type of H with
  | (Val (failure ?m), _) = (Val (bracket_result ?o ?s ?t), _) =>
      apply (failure_not_bracket m o s t); congruence
  end.

(** X11: [success = True] means the entry was accepted, and nothing more: a
    bracket result is returned only when the exchange answered the entry
    with return code 0 and an order id; its [main_order] and [stop_loss] are
    the answers to the entry and to the stop-loss, and its [take_profits]
    holds accepted answers only, at most one per take-profit. The stop-loss
    answer itself may be a rejection. *)
Theorem bracket_result_means_entry_accepted :
  forall session symbol side qty price sl take_profits w o s t w',
    place_limit_order session symbol side qty price sl take_profits w
      = (Val (bracket_result o s t), w') ->
    exists sym sd tps,
      symbol = PStr sym /\ side = PStr sd /\ py_iter take_profits = Val tps /\
      session (calls w) (PlaceOrder (entry_order (replace_slash sym) sd qty price))
        = Returns o /\
      accepted o /\
      session (calls w ++ [PlaceOrder (entry_order (replace_slash sym) sd qty price)])
              (PlaceOrder (stop_order (replace_slash sym) sd qty sl))
        = Returns s /\
      Forall accepted t /\ (length t <= length tps)%nat.
Proof.
  intros session symbol side qty price sl take_profits w o s t w'.
  unfold place_limit_order, place_limit_order_body. run.
  destruct symbol as [| | |sym| |]; cbv beta iota delta [as_str]; run; try not_bracket.
  destruct side as [| | |sd| |]; cbv beta iota delta [as_str]; run; try not_bracket.
  destruct (session (calls w) (PlaceOrder (entry_order (replace_slash sym) sd qty price)))
    as [order_response|msg] eqn:Hs; run; [|not_bracket].
  destruct (py_getitem order_response "retCode") as [rc|e] eqn:Hrc; run;
    [|not_bracket].
  destruct (py_ne0 rc) eqn:Hne; run.
  { intro H. exfalso.
    apply (with_ret_code_not_bracket order_response rc o s t Hrc). congruence. }
  destruct (order_id order_response) as [oid|e] eqn:Hid; run; [|not_bracket].
  destruct (session (calls w ++ [PlaceOrder (entry_order (replace_slash sym) sd qty price)])
              (PlaceOrder (stop_order (replace_slash sym) sd qty sl)))
    as [sl_response|msg] eqn:Hss; run; [|not_bracket].
  destruct (py_getitem sl_response "retCode") as [sl_rc|e]; run;
    [|not_bracket].
  destruct (py_eq0 sl_rc); run;
    [destruct (order_id sl_response) as [oid'|e]; run; [|not_bracket] |];
    (destruct (py_iter take_profits) as [tps|e]; run; [|not_bracket];
     match goal with
     | |- context [place_take_profits ?a ?b ?c ?d ?e ?f ?g] =>
         destruct (place_take_profits a b c d e f g) as [[tp_responses|e'] w2] eqn:Hloop
     end; [|not_bracket];
     intro H;
     assert (Ho : order_response = o) by (unfold bracket_result in H; congruence);
     assert (Hsl : sl_response = s) by (unfold bracket_result in H; congruence);
     assert (Ht : tp_responses = t) by (unfold bracket_result in H; congruence);
     subst o s t;
     destruct (place_take_profits_accepted _ _ _ _ _ _ _ _ _ Hloop)
       as [new [-> [Hacc Hlen]]];
     exists sym, sd, tps;
     (split; [reflexivity|]); (split; [reflexivity|]); (split; [reflexivity|]);
     (split; [exact Hs|]);
     (split; [exists rc, oid; repeat split; assumption|]);
     (split; [exact Hss|]);
     (split; [exact Hacc | exact Hlen])).
Qed.

Lemma bracket_result_means_entry_accepted_witness :
  exists sym sd tps,
    PStr "HYPE/USDT" = PStr sym /\ PStr "long" = PStr sd /\
    py_iter (PList sample_take_profits) = Val tps /\
    sample_session reject_stop (calls world0)
      (PlaceOrder (entry_order (replace_slash sym) sd 7.898 (PNum 44.64)))
      = Returns accept_response /\
    accepted accept_response /\
    sample_session reject_stop
      (calls world0 ++ [PlaceOrder (entry_order (replace_slash sym) sd 7.898 (PNum 44.64))])
      (PlaceOrder (stop_order (replace_slash sym) sd 7.898 (PNum 44.1336)))
      = Returns reject_response /\
    Forall accepted [accept_response; accept_response; accept_response] /\
    (length [accept_response; accept_response; accept_response] <= length tps)%nat.
Proof.
  eapply (bracket_result_means_entry_accepted (sample_session reject_stop)
            (PStr "HYPE/USDT") (PStr "long") 7.898 (PNum 44.64) (PNum 44.1336)
            (PList sample_take_profits) world0).
  reflexivity.
Defined.

(** X12: a failure result does not mean that nothing was placed. When the
    entry was accepted and the stop-loss submission raises, the result is
    [success = False] with the exception's message, the entry and the
    stop-loss submission are the calls made, no take-profit is submitted and
    nothing is cancelled. *)
Theorem stop_loss_exception_leaves_entry_placed :
  forall session sym sd qty price sl take_profits w o rc oid msg,
    let entry := PlaceOrder (entry_order (replace_slash sym) sd qty price) in
    let stop := PlaceOrder (stop_order (replace_slash sym) sd qty sl) in
    session (calls w) entry = Returns o ->
    py_getitem o "retCode" = Val rc ->
    py_ne0 rc = false ->
    order_id o = Val oid ->
    session (calls w ++ [entry]) stop = Raises msg ->
    place_limit_order session (PStr sym) (PStr sd) qty price sl take_profits w
      = (Val (failure msg), mkWorld (calls w ++ [entry; stop]) (divisions w)).
Proof.
  intros session sym sd qty price sl take_profits w o rc oid msg entry stop
         Hs Hrc Hne Hid Hss.
  unfold place_limit_order, place_limit_order_body. run.
  cbv beta iota delta [as_str]. run. fold entry.
  rewrite Hs. run. rewrite Hrc. run. rewrite Hne, Hid. run. fold stop.
  rewrite Hss. run. rewrite <- app_assoc. reflexivity.
Qed.

(** X13: a take-profit entry without [size_pct] is found only after the
    entry and the stop-loss have been submitted: the result is
    [success = False] with the key error as message, and both orders stay
    placed. *)
Theorem malformed_take_profit_found_after_placement :
  forall session sym sd qty price sl take_profits tp rest w o rc oid s s_rc e,
    let entry := PlaceOrder (entry_order (replace_slash sym) sd qty price) in
    let stop := PlaceOrder (stop_order (replace_slash sym) sd qty sl) in
    session (calls w) entry = Returns o ->
    py_getitem o "retCode" = Val rc ->
    py_ne0 rc = false ->
    order_id o = Val oid ->
    session (calls w ++ [entry]) stop = Returns s ->
    py_getitem s "retCode" = Val s_rc ->
    py_ne0 s_rc = true ->
    py_iter take_profits = Val (tp :: rest) ->
    py_getitem tp "size_pct" = Exc e ->
    place_limit_order session (PStr sym) (PStr sd) qty price sl take_profits w
      = (Val (failure (exn_str e)), mkWorld (calls w ++ [entry; stop]) (divisions w)).
Proof.
  intros session sym sd qty price sl take_profits tp rest w o rc oid s s_rc e entry stop
         Hs Hrc Hne Hid Hss Hsrc Hsne Hit Htp.
  unfold place_limit_order, place_limit_order_body. run.
  cbv beta iota delta [as_str]. run. fold entry.
  rewrite Hs. run. rewrite Hrc. run. rewrite Hne, Hid. run. fold stop.
  rewrite Hss. run. rewrite Hsrc. run. unfold py_eq0. rewrite Hsne. run.
  rewrite Hit. run. cbn [place_take_profits]. run. rewrite Htp. cbn [rbind]. run.
  rewrite <- app_assoc. reflexivity.
Qed.

Lemma stop_loss_exception_leaves_entry_placed_witness :
  place_limit_order stop_raises_session (PStr "HYPE/USDT") (PStr "long")
    7.898 (PNum 44.64) (PNum 44.1336) (PList sample_take_profits) world0
  = (Val (failure "timed out"),
     mkWorld (calls world0
                ++ [PlaceOrder (entry_order (replace_slash "HYPE/USDT") "long" 7.898
                                            (PNum 44.64));
                    PlaceOrder (stop_order (replace_slash "HYPE/USDT") "long" 7.898
                                           (PNum 44.1336))])
             (divisions world0)).
Proof.
  apply (stop_loss_exception_leaves_entry_placed stop_raises_session "HYPE/USDT" "long"
           7.898 (PNum 44.64) (PNum 44.1336) (PList sample_take_profits) world0
           accept_response (PNum 0) (PStr "1") "timed out").
  - reflexivity.
  - reflexivity.
  - reflexivity.
  - reflexivity.
  - reflexivity.
Defined.

Lemma malformed_take_profit_found_after_placement_witness :
  place_limit_order (sample_session reject_stop) (PStr "HYPE/USDT") (PStr "long")
    7.898 (PNum 44.64) (PNum 44.1336) (PList [PDict [("price", PNum 45.1464)]]) world0
  = (Val (failure (exn_str (KeyError "size_pct"))),
     mkWorld (calls world0
                ++ [PlaceOrder (entry_order (replace_slash "HYPE/USDT") "long" 7.898
                                            (PNum 44.64));
                    PlaceOrder (stop_order (replace_slash "HYPE/USDT") "long" 7.898
                                           (PNum 44.1336))])
             (divisions world0)).
Proof.
  apply (malformed_take_profit_found_after_placement (sample_session reject_stop)
           "HYPE/USDT" "long" 7.898 (PNum 44.64) (PNum 44.1336)
           (PList [PDict [("price", PNum 45.1464)]])
           (PDict [("price", PNum 45.1464)]) [] world0
           accept_response (PNum 0) (PStr "1") reject_response (PNum 10001)
           (KeyError "size_pct")).
  - reflexivity.
  - reflexivity.
  - reflexivity.
  - reflexivity.
  - reflexivity.
  - reflexivity.
  - reflexivity.
  - reflexivity.
  - reflexivity.
Defined.

(** ** The order of the exchange calls of a trade *)

Lemma calculate_position_size_calls session float_of_str risk_pct stop_loss entry_price si w :
  exists q w',
    calculate_position_size session float_of_str risk_pct stop_loss entry_price si w
      = (Val q, w') /\
    calls w' = calls w ++ [GetWalletBalance "UNIFIED"].
Proof.
  unfold calculate_position_size, calculate_position_size_body, get_account_info. run.
  split_run; (eexists; eexists; split; reflexivity).
Qed.

Section TradeTrace.

Variable session : list call -> call -> reply.
Variable float_of_str : string -> option Q.
Variable py_str : pyval -> string.

Ltac leaf := eexists; eexists; split; [reflexivity | assumption].

Lemma execute_trade_body_trace td w :
  exists r w',
    execute_trade_body session float_of_str py_str td w = (r, w') /\
    exchange_trace w w'.
Proof.
  assert (Ht0 : exchange_trace w w).
  { exists []. rewrite app_nil_r. split; [reflexivity | left; reflexivity]. }
  unfold execute_trade_body. run.
  destruct (py_getitem td "symbol") as [symbol|e]; run; [|leaf].
  destruct (py_getitem td "side") as [side|e]; run; [|leaf].
  destruct (first_missing required_fields td) as [[f|]|e]; run; [leaf| |leaf].
  destruct (py_getitem td "limit_plan") as [lp|e]; run; [|leaf].
  destruct (py_getitem td "risk") as [risk|e]; run; [|leaf].
  destruct (get_symbol_info_run session symbol w) as [si [w1 [Hsi Hsym]]].
  rewrite Hsi. run.
  destruct symbol as [| | |s| |];
    try (destruct Hsym as [-> ->]; cbn [truthy]; leaf).
  destruct Hsym as [Hc1 _].
  assert (Ht1 : exchange_trace w w1).
  { exists [GetInstrumentsInfo "linear" (replace_slash s)].
    split; [exact Hc1|]. right. eexists. left. reflexivity. }
  destruct (truthy si); run; [|leaf].
  destruct (py_getitem lp "orders") as [orders|e]; run; [|leaf].
  destruct (py_getitem0 orders) as [order0|e]; run; [|leaf].
  destruct (py_getitem order0 "price") as [ep|e]; run; [|leaf].
  destruct (py_getitem lp "stop_loss") as [sl|e]; run; [|leaf].
  destruct (py_get risk "risk_per_trade_pct" (PNum 0.4)) as [risk_pct|e]; run; [|leaf].
  destruct (calculate_position_size_calls session float_of_str risk_pct sl ep si w1)
    as [q [w2 [Hq Hc2]]].
  rewrite Hq. run.
  assert (Ht2 : exchange_trace w w2).
  { exists [GetInstrumentsInfo "linear" (replace_slash s); GetWalletBalance "UNIFIED"].
    split; [rewrite Hc2, Hc1, <- app_assoc; reflexivity|].
    right. eexists. right. exists []. reflexivity. }
  destruct (Qeq_bool q 0); run; [leaf|].
  destruct (py_getitem lp "take_profits") as [tps|e]; run; [|leaf].
  destruct (py_getitem lp "cancel_if") as [cancel_if|e]; run; [|leaf].
  destruct (py_getitem cancel_if "timeout_min") as [timeout_min|e]; run; [|leaf].
  destruct (place_limit_order_orders_only session (PStr s) side q ep sl tps w2)
    as [result [w3 [os [Hp [Hc3 _]]]]].
  rewrite Hp. run.
  assert (Ht3 : exchange_trace w w3).
  { exists (GetInstrumentsInfo "linear" (replace_slash s) :: GetWalletBalance "UNIFIED"
              :: map PlaceOrder os).
    split; [rewrite Hc3, Hc2, Hc1; repeat rewrite <- app_assoc; reflexivity|].
    right. eexists. right. exists os. reflexivity. }
  destruct (py_getitem result "success") as [success|e]; run; [|leaf].
  destruct (truthy success); run; [leaf|].
  destruct (py_get result "error" (PStr "Unknown error")); run; leaf.
Qed.

End TradeTrace.

(** X14: the exchange calls of [execute_trade] come in a fixed order. It
    calls nothing; or it queries the instrument and stops; or it queries the
    instrument, then the wallet, and everything after that is an order. No
    order is ever placed before both queries, and neither query is
    repeated. *)
Theorem execute_trade_call_order :
  forall session float_of_str py_str trade_data w,
    exists result w',
      execute_trade session float_of_str py_str trade_data w = (Val result, w') /\
      exchange_trace w w'.
Proof.
  intros session fos pstr td w. unfold execute_trade, catch.
  destruct (execute_trade_body_trace session fos pstr td w) as [r [w' [Hrun Ht]]].
  rewrite Hrun. destruct r as [v|e]; eexists; eexists; (split; [reflexivity | exact Ht]).
Qed.

(** ** The webhook validator and handler *)

Lemma getitem_in v k x : py_getitem v k = Val x -> py_in k v = Val true.
Proof.
  destruct v as [| | | | |d]; try discriminate.
  unfold py_getitem, py_in. destruct (dict_get d k); [reflexivity | discriminate].
Qed.

Lemma in_getitem v k x0 :
  py_getitem v k = Val x0 -> forall k', py_in k' v = Val true ->
  exists x, py_getitem v k' = Val x.
Proof.
  destruct v as [| | | | |d]; try discriminate.
  intros _ k'. unfold py_getitem, py_in.
  destruct (dict_get d k') as [x|]; [|discriminate].
  intros _. exists x. reflexivity.
Qed.

Lemma validate_webhook_data_accepts data :
  webhook_data_ok data -> validate_webhook_data data = true.
Proof.
  intros [Hintent [trade [Htrade [Haction [Hreq [lp [Hlp [[x [xs Ho]] [Hsl [y [ys Htp]]]]]]]]]]].
  unfold validate_webhook_data, validate_webhook_data_body, rbind.
  rewrite (getitem_in _ _ _ Hintent), Hintent. cbn [is_str negb].
  change (String.eqb "trade_decision" "trade_decision") with true. cbn [negb].
  rewrite (getitem_in _ _ _ Htrade), Htrade. cbn [negb].
  unfold required_trade_fields. cbn [first_missing rbind].
  rewrite Haction.
  rewrite (Hreq "symbol"%string), (Hreq "side"%string), (Hreq "limit_plan"%string),
    (Hreq "risk"%string); try (cbn; tauto).
  rewrite Hlp.
  rewrite (getitem_in _ _ _ Ho), Hsl, (getitem_in _ _ _ Htp). cbn [andb negb].
  rewrite Ho, Htp. reflexivity.
Qed.

Lemma validate_webhook_data_requires data :
  validate_webhook_data data = true -> webhook_data_ok data.
Proof.
  intro Hv.
  destruct (validate_webhook_data_sound data Hv) as [trade [Htrade Hok]].
  unfold validate_webhook_data, validate_webhook_data_body, rbind in Hv.
  destruct (py_in "intent" data) as [[|]|e]; try discriminate Hv.
  destruct (py_getitem data "intent") as [i|e] eqn:Hi; [|discriminate Hv].
  destruct (is_str "trade_decision" i) eqn:His; [|discriminate Hv]. cbn [negb] in Hv.
  destruct (py_in "trade" data) as [[|]|e]; try discriminate Hv. cbn [negb] in Hv.
  rewrite Htrade in Hv.
  destruct (first_missing required_trade_fields trade) as [[f|]|e] eqn:Hm;
    try discriminate Hv.
  split.
  - destruct i; try discriminate His. cbn [is_str] in His.
    apply String.eqb_eq in His. rewrite Hi, His. reflexivity.
  - exists trade. split; [exact Htrade|]. split; [|exact Hok].
    apply (first_missing_none _ _ Hm). left. reflexivity.
Qed.

(** X15: [validate_webhook_data] accepts exactly the payloads that are a
    mapping with intent ['trade_decision'] and a trade that has action,
    symbol, side, limit_plan and risk, whose limit_plan is a mapping with a
    non-empty list of orders, a stop_loss key and a non-empty list of
    take_profits. Nothing else is checked: not the values of symbol, side
    or risk, nor the entries of the lists. *)
Theorem validate_webhook_data_exact :
  forall data, validate_webhook_data data = true <-> webhook_data_ok data.
Proof.
  intro data. split.
  - apply validate_webhook_data_requires.
  - apply validate_webhook_data_accepts.
Qed.

Section Handler.

Variable session : list call -> call -> reply.
Variable float_of_str : string -> option Q.
Variable py_str : pyval -> string.

Lemma execute_trade_async_run data trade w :
  py_getitem data "trade" = Val trade ->
  py_in "symbol" trade = Val true ->
  forall x, py_getitem trade "limit_plan" = Val x ->
  execute_trade_async session float_of_str py_str data w
    = (Val tt, snd (execute_trade session float_of_str py_str trade w)).
Proof.
  intros Htrade Hsym x Hlp.
  destruct (in_getitem _ _ _ Hlp _ Hsym) as [sym Hs].
  destruct (execute_trade_total session float_of_str py_str trade w)
    as [d [w' [Hrun Hd]]].
  unfold execute_trade_async. run. rewrite Htrade. run. rewrite Hs. run.
  rewrite Hrun. run. cbn [py_getitem].
  destruct (dict_get d "success"); [reflexivity | contradiction].
Qed.

(** X16: the status of [do_POST] depends on the validation alone, never on
    the outcome of the trade. A payload that fails validation gets 400 and
    nothing is executed; a valid payload gets 500 and nothing is executed
    when the trader is not initialised; otherwise it gets 200 and the trade
    is executed, and the calls made are those of [execute_trade] on the
    payload's trade, whether that trade succeeds or not. *)
Theorem do_POST_status :
  forall trader_initialized data w,
    (~ webhook_data_ok data ->
       do_POST session float_of_str py_str trader_initialized (Parsed data) w
         = (Val 400%nat, w)) /\
    (webhook_data_ok data ->
       do_POST session float_of_str py_str false (Parsed data) w = (Val 500%nat, w) /\
       exists trade,
         py_getitem data "trade" = Val trade /\
         do_POST session float_of_str py_str true (Parsed data) w
           = (Val 200%nat, snd (execute_trade session float_of_str py_str trade w))).
Proof.
  intros trader data w. split.
  - intro Hbad. unfold do_POST.
    destruct (validate_webhook_data data) eqn:Hv; [|reflexivity].
    exfalso. apply Hbad. apply validate_webhook_data_requires. exact Hv.
  - intro Hok. pose proof (validate_webhook_data_accepts data Hok) as Hv.
    unfold do_POST. rewrite Hv. cbn [negb]. split; [reflexivity|].
    destruct Hok as [_ [trade [Htrade [_ [Hreq [lp [Hlp _]]]]]]].
    exists trade. split; [exact Htrade|].
    unfold bind.
    rewrite (execute_trade_async_run data trade w Htrade
               (Hreq "symbol"%string (or_introl eq_refl)) lp Hlp).
    reflexivity.
Qed.

End Handler.

Lemma sample_webhook_data_ok :
  webhook_data_ok (PDict [("intent", PStr "trade_decision"); ("trade", sample_trade)]).
Proof.
  split; [reflexivity|]. exists sample_trade.
  split; [reflexivity|]. split; [reflexivity|]. split.
  - intros f [<- | [<- | [<- | [<- | []]]]]; reflexivity.
  - exists (sample_limit_plan sample_take_profits).
    split; [reflexivity|]. split; [eexists; eexists; reflexivity|].
    split; [reflexivity|]. eexists. eexists. reflexivity.
Qed.

Lemma validate_webhook_data_exact_witness :
  validate_webhook_data (PDict [("intent", PStr "trade_decision"); ("trade", sample_trade)])
  = true.
Proof.
  apply (validate_webhook_data_exact
           (PDict [("intent", PStr "trade_decision"); ("trade", sample_trade)])).
  exact sample_webhook_data_ok.
Defined.

Lemma do_POST_status_witness :
  do_POST (sample_session reject_all) no_float no_str false
    (Parsed (PDict [("intent", PStr "trade_decision"); ("trade", sample_trade)])) world0
    = (Val 500%nat, world0) /\
  exists trade,
    py_getitem (PDict [("intent", PStr "trade_decision"); ("trade", sample_trade)]) "trade"
      = Val trade /\
    do_POST (sample_session reject_all) no_float no_str true
      (Parsed (PDict [("intent", PStr "trade_decision"); ("trade", sample_trade)])) world0
      = (Val 200%nat,
         snd (execute_trade (sample_session reject_all) no_float no_str trade world0)).
Proof.
  destruct (do_POST_status (sample_session reject_all) no_float no_str true
              (PDict [("intent", PStr "trade_decision"); ("trade", sample_trade)]) world0)
    as [_ Hok].
  apply Hok. exact sample_webhook_data_ok.
Defined.

(** ** Trades that stop before any order *)

Lemma calculate_position_size_query_raises session float_of_str rp sl ep si w msg :
  session (calls w) (GetWalletBalance "UNIFIED") = Raises msg ->
  calculate_position_size session float_of_str rp sl ep si w
    = (Val 0, mkWorld (calls w ++ [GetWalletBalance "UNIFIED"]) (divisions w)).
Proof.
  intro Hs.
  unfold calculate_position_size, calculate_position_size_body, get_account_info.
  run. rewrite Hs. run. reflexivity.
Qed.

Section QuietTrades.

Variable session : list call -> call -> reply.
Variable float_of_str : string -> option Q.
Variable py_str : pyval -> string.

Ltac stop_quietly :=
  eexists; eexists; split; [reflexivity | first [assumption | apply quiet_refl]].

(** X17: the timeout is never acted upon, yet it must be there. When the
    limit_plan of a trade lacks [take_profits], [cancel_if] or
    [cancel_if.timeout_min], [execute_trade] fails without placing any
    order, whatever else the payload holds and whatever the exchange
    answers. *)
Theorem missing_plan_key_places_no_order :
  forall trade_data limit_plan w,
    py_getitem trade_data "limit_plan" = Val limit_plan ->
    (exists e, py_getitem limit_plan "take_profits" = Exc e) \/
    (exists e, py_getitem limit_plan "cancel_if" = Exc e) \/
    (exists cancel_if e,
        py_getitem limit_plan "cancel_if" = Val cancel_if /\
        py_getitem cancel_if "timeout_min" = Exc e) ->
    exists msg w',
      execute_trade session float_of_str py_str trade_data w = (Val (failure msg), w') /\
      quiet w w'.
Proof.
  intros td lp w Hlp Hmiss.
  unfold execute_trade, execute_trade_body. run.
  destruct (py_getitem td "symbol") as [symbol|e]; run; [|stop_quietly].
  destruct (py_getitem td "side") as [side|e]; run; [|stop_quietly].
  destruct (first_missing required_fields td) as [[f|]|e]; run;
    [stop_quietly| |stop_quietly].
  rewrite Hlp. run.
  destruct (py_getitem td "risk") as [risk|e]; run; [|stop_quietly].
  destruct (get_symbol_info_quiet session symbol w) as [si [w1 [Hsi Hq1]]].
  rewrite Hsi. run.
  destruct (truthy si); run; [|stop_quietly].
  destruct (py_getitem lp "orders") as [orders|e]; run; [|stop_quietly].
  destruct (py_getitem0 orders) as [order0|e]; run; [|stop_quietly].
  destruct (py_getitem order0 "price") as [ep|e]; run; [|stop_quietly].
  destruct (py_getitem lp "stop_loss") as [sl|e]; run; [|stop_quietly].
  destruct (py_get risk "risk_per_trade_pct" (PNum 0.4)) as [risk_pct|e]; run;
    [|stop_quietly].
  destruct (calculate_position_size_quiet session float_of_str risk_pct sl ep si w1)
    as [q [w2 [Hq Hq2]]].
  rewrite Hq. run.
  pose proof (quiet_trans _ _ _ Hq1 Hq2) as Hq12.
  destruct (Qeq_bool q 0); run; [stop_quietly|].
  destruct (py_getitem lp "take_profits") as [tps|e] eqn:Htp; run; [|stop_quietly].
  destruct (py_getitem lp "cancel_if") as [cancel_if|e] eqn:Hci; run; [|stop_quietly].
  destruct (py_getitem cancel_if "timeout_min") as [timeout_min|e] eqn:Htm; run;
    [|stop_quietly].
  exfalso.
  destruct Hmiss as [[e H] | [[e H] | [c [e [Hc H]]]]]; try discriminate H.
  injection Hc as <-. rewrite Htm in H. discriminate H.
Qed.

(** X18: when the wallet query raises, the sizer gives the zero sentinel
    and [execute_trade] fails without placing any order, for every
    payload. *)
Theorem unavailable_balance_places_no_order :
  forall trade_data w,
    (forall h, exists msg, session h (GetWalletBalance "UNIFIED") = Raises msg) ->
    exists msg w',
      execute_trade session float_of_str py_str trade_data w = (Val (failure msg), w') /\
      quiet w w'.
Proof.
  intros td w Hraise.
  unfold execute_trade, execute_trade_body. run.
  destruct (py_getitem td "symbol") as [symbol|e]; run; [|stop_quietly].
  destruct (py_getitem td "side") as [side|e]; run; [|stop_quietly].
  destruct (first_missing required_fields td) as [[f|]|e]; run;
    [stop_quietly| |stop_quietly].
  destruct (py_getitem td "limit_plan") as [lp|e]; run; [|stop_quietly].
  destruct (py_getitem td "risk") as [risk|e]; run; [|stop_quietly].
  destruct (get_symbol_info_quiet session symbol w) as [si [w1 [Hsi Hq1]]].
  rewrite Hsi. run.
  destruct (truthy si); run; [|stop_quietly].
  destruct (py_getitem lp "orders") as [orders|e]; run; [|stop_quietly].
  destruct (py_getitem0 orders) as [order0|e]; run; [|stop_quietly].
  destruct (py_getitem order0 "price") as [ep|e]; run; [|stop_quietly].
  destruct (py_getitem lp "stop_loss") as [sl|e]; run; [|stop_quietly].
  destruct (py_get risk "risk_per_trade_pct" (PNum 0.4)) as [risk_pct|e]; run;
    [|stop_quietly].
  destruct (Hraise (calls w1)) as [msg Hmsg].
  rewrite (calculate_position_size_query_raises session float_of_str risk_pct sl ep si
             w1 msg Hmsg).
  run. change (Qeq_bool 0 0) with true. run.
  eexists. eexists. split; [reflexivity|].
  apply (quiet_trans _ _ _ Hq1). apply quiet_step. reflexivity.
Qed.

End QuietTrades.

Lemma missing_plan_key_places_no_order_witness :
  exists msg w',
    execute_trade (sample_session accept_all) no_float no_str
      (trade_with plan_without_cancel_if) world0 = (Val (failure msg), w') /\
    quiet world0 w'.
Proof.
  apply (missing_plan_key_places_no_order (sample_session accept_all) no_float no_str
           (trade_with plan_without_cancel_if) plan_without_cancel_if world0).
  - reflexivity.
  - right. left. eexists. reflexivity.
Defined.

Lemma unavailable_balance_places_no_order_witness :
  exists msg w',
    execute_trade wallet_raises_session no_float no_str sample_trade world0
      = (Val (failure msg), w') /\
    quiet world0 w'.
Proof.
  apply (unavailable_balance_places_no_order wallet_raises_session no_float no_str
           sample_trade world0).
  intros h. exists "timed out"%string. reflexivity.
Defined.

(** The two trades above, run: each fails after the wallet query and before
    any order. *)
Example quiet_sample_trades :
  execute_trade (sample_session accept_all) no_float no_str
    (trade_with plan_without_cancel_if) world0
  = (Val (failure "'cancel_if'"),
     mkWorld [GetInstrumentsInfo "linear" "HYPEUSDT"; GetWalletBalance "UNIFIED"]
             (divisions (snd (execute_trade (sample_session accept_all) no_float no_str
                                (trade_with plan_without_cancel_if) world0)))) /\
  execute_trade wallet_raises_session no_float no_str sample_trade world0
  = (Val (failure "Failed to calculate position size"),
     mkWorld [GetInstrumentsInfo "linear" "HYPEUSDT"; GetWalletBalance "UNIFIED"] []).
Proof. split; reflexivity. Qed.

(** The sample bracket against an exchange that accepts every order: the
    three take-profit orders carry 30 %, 40 % and 30 % of the entry
    quantity. *)
Example sample_take_profit_quantities :
  map (fun c => match c with
                | PlaceOrder o => Some (Order.qty o)
                | _ => None
                end)
      (take_profit_calls world0
         (snd (place_limit_order (sample_session accept_all) (PStr "HYPE/USDT")
                 (PStr "long") 7.898 (PNum 44.64) (PNum 44.1336)
                 (PList sample_take_profits) world0)))
  = [Some (7.898 * (30 / 100)); Some (7.898 * (40 / 100)); Some (7.898 * (30 / 100))].
Proof. reflexivity. Qed.
